(** * Atmega_Board_Detector: the ISP session and the identification pipeline

    A shallow embedding of [Atmega_Board_Detector.ino] (version 1.14): the
    sketch enters programming mode on a target AVR chip over SPI, reads its
    signature and fuses, works out where the bootloader lives, dumps it, and
    compares its MD5 sum with a table of known bootloaders.

    The sketch is built for the AVR-based Arduino boards (it programs
    Timer 1 through [TCCR1A]/[TCCR1B]/[OCR1A]), so [byte] is 8 bits wide,
    [int] and [unsigned int] are 16 bits wide and [unsigned long] is 32 bits
    wide.  Integers are modelled as [Z] with the wrap-around written out. *)

From Stdlib Require Import ZArith List String Ascii Bool Lia.
Import ListNotations.
Open Scope Z_scope.

(** ** Machine integers *)

Definition wrap8 (z : Z) : Z := z mod 2 ^ 8.     (* byte *)
Definition wrap16 (z : Z) : Z := z mod 2 ^ 16.   (* unsigned int *)
Definition wrap32 (z : Z) : Z := z mod 2 ^ 32.   (* unsigned long *)

(** An [int] holding the two's complement reading of a 16-bit pattern. *)
Definition int16 (z : Z) : Z :=
  let u := wrap16 z in if u <? 2 ^ 15 then u else u - 2 ^ 16.

(** Arduino.h: [#define bit(b) (1UL << (b))], [lowByte], [highByte]. *)
Definition bit (b : Z) : Z := Z.shiftl 1 b.
Definition lowByte (w : Z) : Z := Z.land w 0xFF.
Definition highByte (w : Z) : Z := wrap8 (Z.shiftr w 8).

(** ** Constants of the sketch *)

Definition CLOCKOUT : Z := 9.
Definition RESET : Z := 10.
Definition ENTER_PROGRAMMING_ATTEMPTS : Z := 50.

(* programming commands to send via SPI to the chip *)
Definition progamEnable : Z := 0xAC.
Definition programAcknowledge : Z := 0x53.
Definition readSignatureByte : Z := 0x30.
Definition readCalibrationByte : Z := 0x38.
Definition readLowFuseByte : Z := 0x50.
Definition readLowFuseByteArg2 : Z := 0x00.
Definition readExtendedFuseByte : Z := 0x50.
Definition readExtendedFuseByteArg2 : Z := 0x08.
Definition readHighFuseByte : Z := 0x58.
Definition readHighFuseByteArg2 : Z := 0x08.
Definition readLockByte : Z := 0x58.
Definition readLockByteArg2 : Z := 0x00.
Definition readProgramMemory : Z := 0x20.
Definition loadExtendedAddressByte : Z := 0x4D.

(* meaning of bytes in the fuse array *)
Definition lowFuse : Z := 0.
Definition highFuse : Z := 1.
Definition extFuse : Z := 2.
Definition lockByte : Z := 3.
Definition calibrationByte : Z := 4.

Definition kb : Z := 1024.
Definition NO_FUSE : Z := 0xFF.

Definition DEC : Z := 10.
Definition HEX : Z := 16.

(** ** The tables *)

Record signatureType : Type := mkSig {
  sig : list Z;                 (* byte sig [3] *)
  desc : string;                (* char * desc *)
  flashSize : Z;                (* unsigned long *)
  baseBootSize : Z;             (* unsigned int *)
  pageSize : Z;                 (* unsigned long, bytes *)
  fuseWithBootloaderSize : Z;   (* byte: one of lowFuse, highFuse, extFuse *)
  timedWrites : Z               (* byte *)
}.

Definition signatures : list signatureType :=
  [
    mkSig [0x1E; 0x91; 0x0B] "ATtiny24" (2 * kb) 0 32 NO_FUSE 0;
    mkSig [0x1E; 0x92; 0x07] "ATtiny44" (4 * kb) 0 64 NO_FUSE 0;
    mkSig [0x1E; 0x93; 0x0C] "ATtiny84" (8 * kb) 0 64 NO_FUSE 0;
    mkSig [0x1E; 0x91; 0x08] "ATtiny25" (2 * kb) 0 32 NO_FUSE 0;
    mkSig [0x1E; 0x92; 0x06] "ATtiny45" (4 * kb) 0 64 NO_FUSE 0;
    mkSig [0x1E; 0x93; 0x0B] "ATtiny85" (8 * kb) 0 64 NO_FUSE 0;
    mkSig [0x1E; 0x92; 0x0A] "ATmega48PA" (4 * kb) 0 64 NO_FUSE 0;
    mkSig [0x1E; 0x93; 0x0F] "ATmega88PA" (8 * kb) 256 128 extFuse 0;
    mkSig [0x1E; 0x94; 0x0B] "ATmega168PA" (16 * kb) 256 128 extFuse 0;
    mkSig [0x1E; 0x95; 0x0F] "ATmega328P" (32 * kb) 512 128 highFuse 0;
    mkSig [0x1E; 0x95; 0x14] "ATmega328" (32 * kb) 512 128 highFuse 0;
    mkSig [0x1E; 0x94; 0x0A] "ATmega164P" (16 * kb) 256 128 highFuse 0;
    mkSig [0x1E; 0x95; 0x08] "ATmega324P" (32 * kb) 512 128 highFuse 0;
    mkSig [0x1E; 0x96; 0x0A] "ATmega644P" (64 * kb) (1 * kb) 256 highFuse 0;
    mkSig [0x1E; 0x96; 0x08] "ATmega640" (64 * kb) (1 * kb) 256 highFuse 0;
    mkSig [0x1E; 0x97; 0x03] "ATmega1280" (128 * kb) (1 * kb) 256 highFuse 0;
    mkSig [0x1E; 0x97; 0x04] "ATmega1281" (128 * kb) (1 * kb) 256 highFuse 0;
    mkSig [0x1E; 0x98; 0x01] "ATmega2560" (256 * kb) (1 * kb) 256 highFuse 0;
    mkSig [0x1E; 0x98; 0x02] "ATmega2561" (256 * kb) (1 * kb) 256 highFuse 0;
    mkSig [0x1E; 0x93; 0x82] "At90USB82" (8 * kb) 512 128 highFuse 0;
    mkSig [0x1E; 0x94; 0x82] "At90USB162" (16 * kb) 512 128 highFuse 0;
    mkSig [0x1E; 0x93; 0x89] "ATmega8U2" (8 * kb) 512 128 highFuse 0;
    mkSig [0x1E; 0x94; 0x89] "ATmega16U2" (16 * kb) 512 128 highFuse 0;
    mkSig [0x1E; 0x95; 0x8A] "ATmega32U2" (32 * kb) 512 128 highFuse 0;
    mkSig [0x1E; 0x94; 0x88] "ATmega16U4" (16 * kb) 512 128 highFuse 0;
    mkSig [0x1E; 0x95; 0x87] "ATmega32U4" (32 * kb) 512 128 highFuse 0;
    mkSig [0x1E; 0x97; 0x05] "ATmega1284P" (128 * kb) (1 * kb) 256 highFuse 0;
    mkSig [0x1E; 0x91; 0x0A] "ATtiny2313A" (2 * kb) 0 32 NO_FUSE 0;
    mkSig [0x1E; 0x92; 0x0D] "ATtiny4313" (4 * kb) 0 64 NO_FUSE 0;
    mkSig [0x1E; 0x90; 0x07] "ATtiny13A" (1 * kb) 0 32 NO_FUSE 0;
    mkSig [0x1E; 0x93; 0x07] "ATmega8A" (8 * kb) 256 64 highFuse 1
  ].

Record deviceDatabaseType : Type := mkDb {
  md5sum : list Z;     (* byte md5sum [16] *)
  filename : string    (* char const * filename *)
}.

Definition deviceDatabase : list deviceDatabaseType :=
  [
    mkDb [0x0A; 0xAC; 0xF7; 0x16; 0xF4; 0x3C; 0xA2; 0xC9; 0x27; 0x7E; 0x08; 0xB9; 0xD6; 0x90; 0xBC; 0x02]
         "ATmegaBOOT_168_atmega328";
    mkDb [0x27; 0xEB; 0x87; 0x14; 0x5D; 0x45; 0xD4; 0xD8; 0x41; 0x44; 0x52; 0xCE; 0x0A; 0x2B; 0x8C; 0x5F]
         "ATmegaBOOT_168_atmega328_pro_8MHz";
    mkDb [0x01; 0x24; 0x13; 0x56; 0x60; 0x4D; 0x91; 0x7E; 0xDC; 0xEE; 0x84; 0xD1; 0x19; 0xEF; 0x91; 0xCE]
         "ATmegaBOOT_168_atmega1280";
    mkDb [0x14; 0x61; 0xCE; 0xDF; 0x85; 0x46; 0x0D; 0x96; 0xCC; 0x41; 0xCB; 0x01; 0x69; 0x40; 0x28; 0x1A]
         "ATmegaBOOT_168_diecimila";
    mkDb [0x6A; 0x22; 0x9F; 0xB4; 0x64; 0x37; 0x3F; 0xA3; 0x0C; 0x68; 0x39; 0x1D; 0x6A; 0x97; 0x2C; 0x40]
         "ATmegaBOOT_168_ng";
    mkDb [0xFF; 0x99; 0xA2; 0xC0; 0xD9; 0xC9; 0xE5; 0x1B; 0x98; 0x7D; 0x9E; 0x56; 0x12; 0xC2; 0xA4; 0xA1]
         "ATmegaBOOT_168_pro_8MHz";
    mkDb [0x98; 0x6D; 0xCF; 0xBB; 0x55; 0xE1; 0x22; 0x1E; 0xE4; 0x3C; 0xC2; 0x07; 0xB2; 0x2B; 0x46; 0xAE]
         "ATmegaBOOT";
    mkDb [0x37; 0xC0; 0xFC; 0x90; 0xE2; 0xA0; 0x5D; 0x8F; 0x62; 0xEB; 0xAE; 0x9C; 0x36; 0xC2; 0x24; 0x05]
         "ATmegaBOOT_168";
    mkDb [0x29; 0x3E; 0xB3; 0xB7; 0x39; 0x84; 0x2D; 0x35; 0xBA; 0x9D; 0x02; 0xF9; 0xC7; 0xF7; 0xC9; 0xD6]
         "ATmegaBOOT_168_atmega328_bt";
    mkDb [0xFC; 0xAF; 0x05; 0x0E; 0xB4; 0xD7; 0x2D; 0x75; 0x8F; 0x41; 0x8C; 0x85; 0x83; 0x56; 0xAA; 0x35]
         "LilyPadBOOT_168";
    mkDb [0x55; 0x71; 0xA1; 0x8C; 0x81; 0x3B; 0x9E; 0xD2; 0xE6; 0x3B; 0xC9; 0x3B; 0x9A; 0xB1; 0x79; 0x53]
         "optiboot_atmega328_IDE_0022";
    mkDb [0x3C; 0x08; 0x90; 0xA1; 0x6A; 0x13; 0xA2; 0xF0; 0xA5; 0x1D; 0x26; 0xEC; 0xF1; 0x4B; 0x0F; 0xB3]
         "optiboot_atmega328_pro_8MHz";
    mkDb [0xAD; 0xBD; 0xA7; 0x4A; 0x4F; 0xAB; 0xA8; 0x65; 0x34; 0x92; 0xF8; 0xC9; 0xCE; 0x58; 0x7D; 0x78]
         "optiboot_lilypad";
    mkDb [0x7B; 0x5C; 0xAC; 0x08; 0x2A; 0x0B; 0x2D; 0x45; 0x69; 0x11; 0xA7; 0xA0; 0xAE; 0x65; 0x7F; 0x66]
         "optiboot_luminet";
    mkDb [0x6A; 0x95; 0x0A; 0xE1; 0xDB; 0x1F; 0x9D; 0xC7; 0x8C; 0xF8; 0xA4; 0x80; 0xB5; 0x1E; 0x54; 0xE1]
         "optiboot_pro_16MHz";
    mkDb [0x2C; 0x55; 0xB4; 0xB8; 0xB5; 0xC5; 0xCB; 0xC4; 0xD3; 0x36; 0x99; 0xCB; 0x4B; 0x9F; 0xDA; 0xBE]
         "optiboot_pro_20mhz";
    mkDb [0x1E; 0x35; 0x14; 0x08; 0x1F; 0x65; 0x7F; 0x8C; 0x96; 0x50; 0x69; 0x9F; 0x19; 0x1E; 0x3D; 0xF0]
         "stk500boot_v2_mega2560";
    mkDb [0xC2; 0x59; 0x71; 0x5F; 0x96; 0x28; 0xE3; 0xAA; 0xB0; 0x69; 0xE2; 0xAF; 0xF0; 0x85; 0xA1; 0x20]
         "DiskLoader-Leonardo";
    mkDb [0xE4; 0xAF; 0xF6; 0x6B; 0x78; 0xDA; 0xE4; 0x30; 0xFE; 0xB6; 0x52; 0xAF; 0x53; 0x52; 0x18; 0x49]
         "optiboot_atmega8";
    mkDb [0x3A; 0x89; 0x30; 0x4B; 0x15; 0xF5; 0xBB; 0x11; 0xAA; 0xE6; 0xE6; 0xDC; 0x7C; 0xF5; 0x91; 0x35]
         "optiboot_atmega168";
    mkDb [0xFB; 0xF4; 0x9B; 0x7B; 0x59; 0x73; 0x7F; 0x65; 0xE8; 0xD0; 0xF8; 0xA5; 0x08; 0x12; 0xE7; 0x9F]
         "optiboot_atmega328";
    mkDb [0x7F; 0xDF; 0xE1; 0xB2; 0x6F; 0x52; 0x8F; 0xBD; 0x7C; 0xFE; 0x7E; 0xE0; 0x84; 0xC0; 0xA5; 0x6B]
         "optiboot_atmega328-Mini";
    mkDb [0x31; 0x28; 0x0B; 0x06; 0xAD; 0xB5; 0xA4; 0xC9; 0x2D; 0xEF; 0xB3; 0x69; 0x29; 0x22; 0xEA; 0xBF]
         "ATmegaBOOT_324P";
    mkDb [0xE8; 0x93; 0x44; 0x43; 0x37; 0xD3; 0x28; 0x3C; 0x7D; 0x9A; 0xEB; 0x84; 0x46; 0xD5; 0x45; 0x42]
         "ATmegaBOOT_644";
    mkDb [0x51; 0x69; 0x10; 0x40; 0x8F; 0x07; 0x81; 0xC6; 0x48; 0x51; 0x54; 0x5E; 0x96; 0x73; 0xC2; 0xEB]
         "ATmegaBOOT_644P";
    mkDb [0xB9; 0x49; 0x93; 0x09; 0x49; 0x1A; 0x64; 0x6E; 0xCD; 0x58; 0x47; 0x89; 0xC2; 0xD8; 0xA4; 0x6C]
         "Mega2560_Original";
    mkDb [0x71; 0xDD; 0xC2; 0x84; 0x64; 0xC4; 0x73; 0x27; 0xD2; 0x33; 0x01; 0x1E; 0xFA; 0xE1; 0x24; 0x4B]
         "optiboot_atmega1284p";
    mkDb [0x0F; 0x02; 0x31; 0x72; 0x95; 0xC8; 0xF7; 0xFD; 0x1B; 0xB7; 0x07; 0x17; 0x85; 0xA5; 0x66; 0x87]
         "Ruggeduino";
    mkDb [0x53; 0xE0; 0x2C; 0xBC; 0x87; 0xF5; 0x0B; 0x68; 0x2C; 0x71; 0x13; 0xE0; 0xED; 0x84; 0x05; 0x34]
         "Leonardo-prod-firmware-2012-04-26";
    mkDb [0x12; 0xAA; 0x80; 0x07; 0x4D; 0x74; 0xE3; 0xDA; 0xBF; 0x2D; 0x25; 0x84; 0x6D; 0x99; 0xF7; 0x20]
         "atmega2560_bootloader_watchdog_bug_fixed";
    mkDb [0x32; 0x56; 0xC1; 0xD3; 0xAC; 0x78; 0x32; 0x4D; 0x04; 0x6D; 0x3F; 0x6D; 0x01; 0xEC; 0xAE; 0x09]
         "Esplora";
    mkDb [0x39; 0xCC; 0x80; 0xD6; 0xDE; 0xA2; 0xC4; 0x91; 0x6F; 0xBC; 0xE8; 0xDD; 0x70; 0xF2; 0xA2; 0x33]
         "Sanguino_ATmegaBOOT_644P";
    mkDb [0x60; 0x49; 0xC6; 0x0A; 0xE6; 0x31; 0x5C; 0xC1; 0xBA; 0xD7; 0x24; 0xEF; 0x8B; 0x6D; 0xE6; 0xD0]
         "Sanguino_ATmegaBOOT_168_atmega644p";
    mkDb [0xC1; 0x17; 0xE3; 0x5E; 0x9C; 0x43; 0x66; 0x5F; 0x1E; 0x4C; 0x41; 0x95; 0x44; 0x60; 0x47; 0xD5]
         "Sanguino_ATmegaBOOT_168_atmega1284p";
    mkDb [0x27; 0x4B; 0x68; 0x8A; 0x8A; 0xA2; 0x4C; 0xE7; 0x30; 0x7F; 0x97; 0x37; 0x87; 0x16; 0x4E; 0x21]
         "Sanguino_ATmegaBOOT_168_atmega1284p_8m";
    mkDb [0xD8; 0x8C; 0x70; 0x6D; 0xFE; 0x1F; 0xDC; 0x38; 0x82; 0x1E; 0xCE; 0xAE; 0x23; 0xB2; 0xE6; 0xE7]
         "Arduino-dfu-usbserial-atmega16u2-Uno-Rev3"
  ].

(** [NUMITEMS (signatures)] and [NUMITEMS (deviceDatabase)]. *)
Definition NUMITEMS {A : Type} (arg : list A) : Z := Z.of_nat (List.length arg).

(** ** What the sketch does to the outside world

    Each call of the Arduino core that reaches the hardware is one event.
    The four [SPI.transfer] calls of one programming instruction are
    recorded together, with the four bytes sent and the four bytes that
    came back. *)

Inductive event : Type :=
| SerialBegin (baud : Z)
| SerialPrint (s : string) (newline : bool)
| SerialNum (n : Z) (base : Z) (newline : bool)
| PinModeOutput (pin : Z)
| DigitalWrite (pin : Z) (level : bool)
| Delay (ms : Z)
| SpiBegin
| SpiClockDiv64
| Timer1ClockOut
| Isp (b1 b2 b3 b4 : Z) (r1 r2 r3 r4 : Z).

(** The byte transport: [SPI.transfer] sends one byte to the target and
    returns the byte clocked in meanwhile.  The target is outside the sketch,
    so it is an interface. *)
Class Transport : Type := {
  target : Type;
  transfer : target -> Z -> target * Z
}.

(** What the board and the build fix: the SPI clock pin and the text of the
    [__DATE__], [__TIME__] and [ARDUINO] macros in the banner. *)
Class Board : Type := {
  SCK : Z;
  compiledOn : string
}.

(** md5.h: an incremental digest, outside the sketch like the target.
    [md5_update] may be fed the message in pieces of any size, and the sum is
    16 bytes long ([byte md5sum [16]]). *)
Class Md5 : Type := {
  md5_context : Type;
  md5_starts : md5_context;
  md5_update : md5_context -> list Z -> md5_context;
  md5_finish : md5_context -> list Z;
  md5_update_nil : forall c, md5_update c [] = c;
  md5_update_app : forall c a b,
    md5_update (md5_update c a) b = md5_update c (a ++ b);
  md5_finish_length : forall c, List.length (md5_finish c) = 16%nat
}.

(** The sum of a whole message. *)
Definition md5_of {md : Md5} (msg : list Z) : list Z :=
  md5_finish (md5_update md5_starts msg).

(** ** Sequencing

    The sketch is straight-line code over a handful of globals and the
    hardware.  A computation takes the state and gives back its result, the
    new state and the events it caused, in order. *)

Record outcome (S A : Type) : Type := mkOutcome {
  value : A;
  final : S;
  emitted : list event
}.
Arguments mkOutcome {S A} _ _ _.
Arguments value {S A} _.
Arguments final {S A} _.
Arguments emitted {S A} _.

Definition M (S A : Type) : Type := S -> outcome S A.

Definition ret {S A : Type} (a : A) : M S A :=
  fun s => mkOutcome a s [].

Definition bind {S A B : Type} (m : M S A) (k : A -> M S B) : M S B :=
  fun s =>
    let r := m s in
    let r' := k (value r) (final r) in
    mkOutcome (value r') (final r') (emitted r ++ emitted r').

Definition emit {S : Type} (e : event) : M S unit :=
  fun s => mkOutcome tt s [e].

Definition gets {S A : Type} (f : S -> A) : M S A :=
  fun s => mkOutcome (f s) s [].

Definition modify {S : Type} (f : S -> S) : M S unit :=
  fun s => mkOutcome tt (f s) [].

Declare Scope sketch_scope.
Delimit Scope sketch_scope with sketch.
Notation "x <- m ;; k" := (bind m (fun x => k))
  (at level 61, m at next level, right associativity) : sketch_scope.
Notation "m ;; k" := (bind m (fun _ => k))
  (at level 61, right associativity) : sketch_scope.
Open Scope sketch_scope.

Definition when {S : Type} (c : bool) (m : M S unit) : M S unit :=
  if c then m else ret tt.

(** [Serial.print (str)], [Serial.println (str)], [Serial.println ()]. *)
Definition print {S : Type} (s : string) : M S unit := emit (SerialPrint s false).
Definition println {S : Type} (s : string) : M S unit := emit (SerialPrint s true).
Definition newline {S : Type} : M S unit := emit (SerialPrint "" true).

(** [memcmp (a, b, n) == 0] *)
Fixpoint bytes_eqb (a b : list Z) : bool :=
  match a, b with
  | [], [] => true
  | x :: a', y :: b' => (x =? y) && bytes_eqb a' b'
  | _, _ => false
  end.

Definition memcmp0 (a b : list Z) (n : nat) : bool :=
  bytes_eqb (firstn n a) (firstn n b).

Section Sketch.

Context {tr : Transport} {bd : Board} {md : Md5}.

(** ** The globals, and the target on the bus *)

Record state : Type := mkState {
  chip : target;
  foundSig : Z;                        (* int foundSig = -1 *)
  lastAddressMSB : Z;                  (* byte lastAddressMSB = 0 *)
  currentSignature : signatureType     (* signatureType currentSignature *)
}.

Definition set_chip (t : target) (s : state) : state :=
  mkState t (foundSig s) (lastAddressMSB s) (currentSignature s).
Definition set_foundSig (j : Z) (s : state) : state :=
  mkState (chip s) j (lastAddressMSB s) (currentSignature s).
Definition set_lastAddressMSB (b : Z) (s : state) : state :=
  mkState (chip s) (foundSig s) b (currentSignature s).
Definition set_currentSignature (c : signatureType) (s : state) : state :=
  mkState (chip s) (foundSig s) (lastAddressMSB s) c.

(** The globals as the C start-up code leaves them. *)
Definition power_on (t : target) : state :=
  mkState t (-1) 0 (mkSig [0; 0; 0] "" 0 0 0 0 0).

(** ** printProgStr, lines 271-278

    One [Serial.print] for each character; no name in the table is a null
    pointer. *)
Fixpoint printProgStr (str : string) : M state unit :=
  match str with
  | EmptyString => ret tt
  | String c rest => print (String c EmptyString) ;; printProgStr rest
  end.

(** ** program, lines 282-288 *)
Definition program (b1 b2 b3 b4 : Z) : M state Z :=
  fun s =>
    let '(t1, r1) := transfer (chip s) b1 in
    let '(t2, r2) := transfer t1 b2 in
    let '(t3, r3) := transfer t2 b3 in
    let '(t4, r4) := transfer t3 b4 in
    mkOutcome r4 (set_chip t4 s) [Isp b1 b2 b3 b4 r1 r2 r3 r4].

(** ** readFlash, lines 290-304 *)

(* line 294 *)
Definition addressMSB (addr : Z) : Z := Z.land (Z.shiftr addr 16) 0xFF.

Definition readFlash (addr : Z) : M state Z :=
  (* set the extended (most significant) address byte if necessary *)
  let MSB := addressMSB addr in
  last <- gets lastAddressMSB ;;
  when (negb (MSB =? last))
    (program loadExtendedAddressByte 0 MSB 0 ;;
     modify (set_lastAddressMSB MSB)) ;;
  let high := if negb (Z.land addr 1 =? 0) then 0x08 else 0 in
  let addr := Z.shiftr addr 1 in   (* turn into word address *)
  program (Z.lor readProgramMemory high) (highByte addr) (lowByte addr) 0.

(** ** showHex, lines 306-317 *)
Definition hexDigit (nibble : Z) : ascii :=
  let c := Z.lor nibble 48 in             (* | '0' *)
  ascii_of_N (Z.to_N (if c >? 57 then c + 7 else c)).

(* buf, lines 309-313 *)
Definition hexText (b : Z) : string :=
  String (hexDigit (Z.land (Z.shiftr b 4) 0x0F))
    (String (hexDigit (Z.land b 0x0F)) (String " " EmptyString)).

Definition showHex (b : Z) (nl : bool) : M state unit :=
  print (hexText b) ;;
  when nl newline.

(** ** showYesNo, lines 319-327 *)
Definition showYesNo (b : bool) (nl : bool) : M state unit :=
  (if b then print "Yes" else print "No") ;;
  when nl newline.

(** ** readBootloader, lines 329-456

    The function is split where the sketch itself changes subject: finding
    the bootloader (lines 334-390, both early [return]s are in this part),
    the hexadecimal dump (lines 391-409), the MD5 sum (lines 410-427) and the
    search of the table of known bootloaders (lines 429-454). *)

(* lines 368, 370, 372: the three flags shown *)
Definition bootloaderInUse (whichFuse : Z) : bool := Z.land whichFuse (bit 0) =? 0.
Definition eepromPreserved (hFuse : Z) : bool := Z.land hFuse (bit 3) =? 0.
Definition watchdogAlwaysOn (hFuse : Z) : bool := Z.land hFuse (bit 4) =? 0.

(* lines 376-382: these 2 bits basically give a base bootloader size
   multiplier; the switch has no default, which leaves len as it is *)
Definition bootMultiplier (whichFuse : Z) : Z :=
  match Z.land (Z.shiftr whichFuse 1) 3 with
  | 0 => 8
  | 1 => 4
  | 2 => 2
  | 3 => 1
  | _ => 1
  end.

(* lines 344-362: the fuse that holds the bootloader size; [None] is the
   default case, which returns from readBootloader *)
Definition readWhichFuse (fusenumber : Z) : M state (option Z) :=
  if fusenumber =? lowFuse then
    whichFuse <- program readLowFuseByte readLowFuseByteArg2 0 0 ;;
    ret (Some whichFuse)
  else if fusenumber =? highFuse then
    whichFuse <- program readHighFuseByte readHighFuseByteArg2 0 0 ;;
    ret (Some whichFuse)
  else if fusenumber =? extFuse then
    whichFuse <- program readExtendedFuseByte readExtendedFuseByteArg2 0 0 ;;
    ret (Some whichFuse)
  else
    println "No bootloader fuse." ;;
    ret None.

(* lines 334-390; the result is the pair (addr, len) that the rest of
   readBootloader works on, [None] where the function returns early *)
Definition locateBootloader : M state (option (Z * Z)) :=
  cs <- gets currentSignature ;;
  if baseBootSize cs =? 0 then
    println "No bootloader support." ;;
    ret None
  else
    let fusenumber := fuseWithBootloaderSize cs in
    hFuse <- program readHighFuseByte readHighFuseByteArg2 0 0 ;;
    which <- readWhichFuse fusenumber ;;
    match which with
    | None => ret None
    | Some whichFuse =>
        let addr := flashSize cs in
        let len := baseBootSize cs in
        print "Bootloader in use: " ;;
        showYesNo (bootloaderInUse whichFuse) true ;;
        print "EEPROM preserved through erase: " ;;
        showYesNo (eepromPreserved hFuse) true ;;
        print "Watchdog timer always on: " ;;
        showYesNo (watchdogAlwaysOn hFuse) true ;;
        (* work out bootloader size *)
        let len := wrap16 (len * bootMultiplier whichFuse) in
        (* where bootloader starts *)
        let addr := wrap32 (addr - len) in
        print "Bootloader is " ;;
        emit (SerialNum len DEC false) ;;
        print " bytes starting at " ;;
        emit (SerialNum addr HEX true) ;;
        ret (Some (addr, len))
    end.

(* lines 395-407 and again lines 466-478: [n] iterations are left, [i] is
   the loop counter.  [i] is an [int] compared with an [unsigned int]; past
   32767 it is taken to wrap, which no entry of the table reaches. *)
Fixpoint hexDump (n : nat) (i : Z) (addr : Z) : M state unit :=
  match n with
  | O => ret tt
  | S n' =>
      (* show address *)
      when (Z.rem i 16 =? 0)
        (emit (SerialNum (wrap32 (addr + i)) HEX false) ;; print ": ") ;;
      b <- readFlash (wrap32 (addr + i)) ;;
      showHex b false ;;
      (* new line every 16 bytes *)
      when (Z.rem i 16 =? 15) newline ;;
      hexDump n' (int16 (i + 1)) addr
  end.

(* lines 419-425: while (len--) *)
Fixpoint md5Loop (len : nat) (addr : Z) (ctx : md5_context) (allFF : bool)
  : M state (md5_context * bool) :=
  match len with
  | O => ret (ctx, allFF)
  | S len' =>
      mem <- readFlash addr ;;
      let allFF := if negb (mem =? 0xFF) then false else allFF in
      md5Loop len' (wrap32 (addr + 1)) (md5_update ctx [mem]) allFF
  end.

(* lines 412-427 *)
Definition digestBootloader (addr len : Z) : M state (list Z * bool) :=
  r <- md5Loop (Z.to_nat len) addr md5_starts true ;;
  ret (md5_finish (fst r), snd r).

(* lines 438-450: the result is [found] *)
Fixpoint searchDatabase (db : list deviceDatabaseType) (sum : list Z)
  : M state bool :=
  match db with
  | [] => ret false
  | dbEntry :: rest =>
      if negb (memcmp0 (md5sum dbEntry) sum 16) then
        searchDatabase rest sum
      else
        (* found match! *)
        print "Bootloader name: " ;;
        printProgStr (filename dbEntry) ;;
        newline ;;
        ret true
  end.

(* lines 429-430 *)
Fixpoint showBytes (n : nat) (i : nat) (a : list Z) : M state unit :=
  match n with
  | O => ret tt
  | S n' => showHex (nth i a 0) false ;; showBytes n' (S i) a
  end.

(* lines 429-454 *)
Definition identifyBootloader (sum : list Z) (allFF : bool) : M state unit :=
  showBytes 16 0 sum ;;
  newline ;;
  if allFF then
    println "No bootloader (all 0xFF)"
  else
    found <- searchDatabase deviceDatabase sum ;;
    when (negb found) (println "Bootloader MD5 sum not known.").

Definition readBootloader : M state unit :=
  where_ <- locateBootloader ;;
  match where_ with
  | None => ret tt
  | Some (addr, len) =>
      newline ;;
      println "Bootloader:" ;;
      newline ;;
      hexDump (Z.to_nat len) 0 addr ;;
      newline ;;
      print "MD5 sum of bootloader = " ;;
      d <- digestBootloader addr len ;;
      identifyBootloader (fst d) (snd d)
  end.

(** ** readProgram, lines 458-482 *)
Definition readProgram : M state unit :=
  let addr := 0 in
  let len := 256 in
  newline ;;
  println "First 256 bytes of program memory:" ;;
  newline ;;
  hexDump (Z.to_nat len) 0 addr ;;
  newline.

(** ** startProgramming, lines 484-527 *)

(* lines 499-510: one pass through the pulse and the enable command; the
   result is [confirm] *)
Definition enterAttempt : M state Z :=
  emit (Delay 100) ;;
  (* ensure SCK low *)
  emit (DigitalWrite SCK false) ;;
  (* then pulse reset, see page 309 of datasheet *)
  emit (DigitalWrite RESET true) ;;
  emit (Delay 1) ;;   (* pulse for at least 2 clock cycles *)
  emit (DigitalWrite RESET false) ;;
  emit (Delay 25) ;;  (* wait at least 20 mS *)
  fun s =>
    let '(t1, r1) := transfer (chip s) progamEnable in
    let '(t2, r2) := transfer t1 programAcknowledge in
    let '(t3, confirm) := transfer t2 0 in
    let '(t4, r4) := transfer t3 0 in
    mkOutcome confirm (set_chip t4 s)
      [Isp progamEnable programAcknowledge 0 0 r1 r2 confirm r4].

(* lines 497-522: the do-while loop.  [Some true]: the loop was left in
   sync; [Some false]: the function returned false from inside the loop;
   [None]: the fuel ran out. *)
Fixpoint enterLoop (fuel : nat) (timeout : Z) : M state (option bool) :=
  match fuel with
  | O => ret None
  | S fuel' =>
      confirm <- enterAttempt ;;
      if negb (confirm =? programAcknowledge) then
        print "." ;;
        if timeout >=? ENTER_PROGRAMMING_ATTEMPTS then
          newline ;;
          println "Failed to enter programming mode. Double-check wiring!" ;;
          ret (Some false)
        else
          enterLoop fuel' (wrap16 (timeout + 1))
      else
        ret (Some true)
  end.

Definition startProgramming (fuel : nat) : M state (option bool) :=
  print "Attempting to enter programming mode ..." ;;
  emit (DigitalWrite RESET true) ;;  (* ensure SS stays high for now *)
  emit SpiBegin ;;
  emit SpiClockDiv64 ;;
  emit (PinModeOutput RESET) ;;
  emit (PinModeOutput SCK) ;;
  let timeout := 0 in
  r <- enterLoop fuel timeout ;;
  match r with
  | Some true =>
      newline ;;
      println "Entered programming mode OK." ;;
      ret (Some true)
  | other => ret other
  end.

(** ** getSignature, lines 529-558 *)

(* lines 541-555: the table entries from index [j] on *)
Fixpoint scanSignatures (tbl : list signatureType) (j : Z) (sig_ : list Z)
  : M state unit :=
  match tbl with
  | [] => println "Unrecogized signature."
  | entry :: rest =>
      modify (set_currentSignature entry) ;;
      cs <- gets currentSignature ;;
      if memcmp0 sig_ (sig cs) 3 then
        modify (set_foundSig j) ;;
        print "Processor = " ;;
        println (desc cs) ;;
        print "Flash memory size = " ;;
        emit (SerialNum (flashSize cs) DEC false) ;;
        println " bytes."
      else
        scanSignatures rest (j + 1) sig_
  end.

Definition getSignature : M state unit :=
  modify (set_foundSig (-1)) ;;
  print "Signature = " ;;
  s0 <- program readSignatureByte 0 0 0 ;;
  showHex s0 false ;;
  s1 <- program readSignatureByte 0 1 0 ;;
  showHex s1 false ;;
  s2 <- program readSignatureByte 0 2 0 ;;
  showHex s2 false ;;
  newline ;;
  scanSignatures signatures 0 [s0; s1; s2].

(** ** getFuseBytes, lines 560-572 *)
Definition getFuseBytes : M state unit :=
  print "LFuse = " ;;
  b <- program readLowFuseByte readLowFuseByteArg2 0 0 ;;
  showHex b true ;;
  print "HFuse = " ;;
  b <- program readHighFuseByte readHighFuseByteArg2 0 0 ;;
  showHex b true ;;
  print "EFuse = " ;;
  b <- program readExtendedFuseByte readExtendedFuseByteArg2 0 0 ;;
  showHex b true ;;
  print "Lock byte = " ;;
  b <- program readLockByte readLockByteArg2 0 0 ;;
  showHex b true ;;
  print "Clock calibration = " ;;
  b <- program readCalibrationByte 0 0 0 ;;
  showHex b true.

(** ** setup, lines 574-605 *)

(* lines 595-602 *)
Definition report : M state unit :=
  getFuseBytes ;;
  found <- gets foundSig ;;
  when (negb (found =? -1)) readBootloader ;;
  readProgram.

(* lines 594-602: what runs once programming mode has been entered *)
Definition detect : M state unit :=
  getSignature ;;
  report.

Definition setup (fuel : nat) : M state (option unit) :=
  emit (SerialBegin 115200) ;;
  (* while (!Serial) ; -- the serial port is taken to be up *)
  newline ;;
  println "Atmega chip detector." ;;
  println "Written by Nick Gammon." ;;
  print "Version " ;;
  println "1.14" ;;
  println compiledOn ;;
  emit (PinModeOutput CLOCKOUT) ;;
  (* set up Timer 1: the three register writes of lines 588-590 *)
  emit Timer1ClockOut ;;
  ok <- startProgramming fuel ;;
  match ok with
  | Some true => detect ;; ret (Some tt)
  | Some false => ret (Some tt)
  | None => ret None
  end.

(** The state in which attempt number [k] (counted from 0) of the loop of
    startProgramming begins, if none before it got the acknowledge. *)
Fixpoint afterAttempts (k : nat) (s : state) : state :=
  match k with
  | O => s
  | S k' => afterAttempts k' (final (enterAttempt s))
  end.

(** ** Runs of reads

    One [readFlash] after the other over a list of addresses; the result is
    the bytes read, in the order of the addresses. *)
Fixpoint readAll (addrs : list Z) : M state (list Z) :=
  match addrs with
  | [] => ret []
  | addr :: rest =>
      b <- readFlash addr ;;
      bs <- readAll rest ;;
      ret (b :: bs)
  end.

End Sketch.

(** ** MD5

    md5.h is not among the sources of the sketch, which is why the digest is
    an interface above.  To run the sketch, the interface is filled with MD5
    as RFC 1321 defines it. *)
Module MD5.

Definition mask32 (z : Z) : Z := z mod 2 ^ 32.

Definition rotl (x c : Z) : Z :=
  mask32 (Z.lor (Z.shiftl x c) (Z.shiftr x (32 - c))).

Definition not32 (x : Z) : Z := Z.lxor x 0xFFFFFFFF.

Definition K : list Z :=
  [
    0xd76aa478; 0xe8c7b756; 0x242070db; 0xc1bdceee;
    0xf57c0faf; 0x4787c62a; 0xa8304613; 0xfd469501;
    0x698098d8; 0x8b44f7af; 0xffff5bb1; 0x895cd7be;
    0x6b901122; 0xfd987193; 0xa679438e; 0x49b40821;
    0xf61e2562; 0xc040b340; 0x265e5a51; 0xe9b6c7aa;
    0xd62f105d; 0x02441453; 0xd8a1e681; 0xe7d3fbc8;
    0x21e1cde6; 0xc33707d6; 0xf4d50d87; 0x455a14ed;
    0xa9e3e905; 0xfcefa3f8; 0x676f02d9; 0x8d2a4c8a;
    0xfffa3942; 0x8771f681; 0x6d9d6122; 0xfde5380c;
    0xa4beea44; 0x4bdecfa9; 0xf6bb4b60; 0xbebfbc70;
    0x289b7ec6; 0xeaa127fa; 0xd4ef3085; 0x04881d05;
    0xd9d4d039; 0xe6db99e5; 0x1fa27cf8; 0xc4ac5665;
    0xf4292244; 0x432aff97; 0xab9423a7; 0xfc93a039;
    0x655b59c3; 0x8f0ccc92; 0xffeff47d; 0x85845dd1;
    0x6fa87e4f; 0xfe2ce6e0; 0xa3014314; 0x4e0811a1;
    0xf7537e82; 0xbd3af235; 0x2ad7d2bb; 0xeb86d391
  ].

Definition S : list Z :=
  [
    7; 12; 17; 22; 7; 12; 17; 22; 7; 12; 17; 22; 7; 12; 17; 22;
    5; 9; 14; 20; 5; 9; 14; 20; 5; 9; 14; 20; 5; 9; 14; 20;
    4; 11; 16; 23; 4; 11; 16; 23; 4; 11; 16; 23; 4; 11; 16; 23;
    6; 10; 15; 21; 6; 10; 15; 21; 6; 10; 15; 21; 6; 10; 15; 21
  ].

(* little-endian bytes of the low [n] bytes of a number *)
Fixpoint le_bytes (n : nat) (z : Z) : list Z :=
  match n with
  | O => []
  | Datatypes.S n' => z mod 256 :: le_bytes n' (z / 256)
  end.

Fixpoint le_word (bs : list Z) : Z :=
  match bs with
  | [] => 0
  | b :: rest => b + 256 * le_word rest
  end.

(* padding: a one bit, zeros up to 56 modulo 64, then the length in bits *)
Definition pad (msg : list Z) : list Z :=
  let len := Z.of_nat (List.length msg) in
  let zeros := (55 - len) mod 64 in
  msg ++ [0x80] ++ repeat 0 (Z.to_nat zeros) ++ le_bytes 8 (8 * len).

Fixpoint words (n : nat) (bs : list Z) : list Z :=
  match n with
  | O => []
  | Datatypes.S n' => le_word (firstn 4 bs) :: words n' (skipn 4 bs)
  end.

Definition round (m : list Z) (st : Z * Z * Z * Z) (i : nat) : Z * Z * Z * Z :=
  let '(a, b, c, d) := st in
  let iz := Z.of_nat i in
  let '(f, g) :=
    if iz <? 16 then (Z.lor (Z.land b c) (Z.land (not32 b) d), iz)
    else if iz <? 32 then (Z.lor (Z.land d b) (Z.land (not32 d) c), (5 * iz + 1) mod 16)
    else if iz <? 48 then (Z.lxor (Z.lxor b c) d, (3 * iz + 5) mod 16)
    else (Z.lxor c (Z.lor b (not32 d)), (7 * iz) mod 16) in
  let f := mask32 (f + a + nth i K 0 + nth (Z.to_nat g) m 0) in
  (d, mask32 (b + rotl f (nth i S 0)), b, c).

Definition block (st : Z * Z * Z * Z) (bs : list Z) : Z * Z * Z * Z :=
  let m := words 16 bs in
  let '(a0, b0, c0, d0) := st in
  let '(a, b, c, d) := fold_left (round m) (seq 0 64) st in
  (mask32 (a0 + a), mask32 (b0 + b), mask32 (c0 + c), mask32 (d0 + d)).

Fixpoint blocks (n : nat) (st : Z * Z * Z * Z) (bs : list Z) : Z * Z * Z * Z :=
  match n with
  | O => st
  | Datatypes.S n' => blocks n' (block st (firstn 64 bs)) (skipn 64 bs)
  end.

Definition digest_bytes (st : Z * Z * Z * Z) : list Z :=
  le_bytes 4 (fst (fst (fst st))) ++ le_bytes 4 (snd (fst (fst st)))
  ++ le_bytes 4 (snd (fst st)) ++ le_bytes 4 (snd st).

Definition md5 (msg : list Z) : list Z :=
  let p := pad msg in
  digest_bytes
    (blocks (List.length p / 64)
       (0x67452301, 0xefcdab89, 0x98badcfe, 0x10325476) p).

End MD5.

(** The digest the sketch links against, seen through the interface: the
    context is the message so far. *)
Definition rfc1321 : Md5 :=
  {| md5_context := list Z;
     md5_starts := [];
     md5_update := fun c bs => c ++ bs;
     md5_finish := MD5.md5;
     md5_update_nil := fun c => app_nil_r c;
     md5_update_app := fun c a b => eq_sym (app_assoc c a b);
     md5_finish_length := fun _ => eq_refl |}.

(** ** Targets to run the sketch against *)

(** Nothing on the bus: every transfer reads zero. *)
Definition unconnected : Transport :=
  {| target := unit; transfer := fun _ _ => (tt, 0) |}.

(** A chip that follows the serial programming instruction set: it echoes
    the previous byte while an instruction comes in and answers on the
    fourth byte. *)
Record avr : Type := mkAvr {
  avr_sig : list Z;
  avr_lfuse : Z;
  avr_hfuse : Z;
  avr_efuse : Z;
  avr_lock : Z;
  avr_cal : Z;
  avr_flash : Z -> Z;      (* by byte address *)
  avr_ext : Z;             (* the extended address byte *)
  avr_rx : list Z          (* the bytes of the instruction so far *)
}.

Definition avr_rx_set (rx : list Z) (c : avr) : avr :=
  mkAvr (avr_sig c) (avr_lfuse c) (avr_hfuse c) (avr_efuse c) (avr_lock c)
        (avr_cal c) (avr_flash c) (avr_ext c) rx.

Definition avr_ext_set (e : Z) (c : avr) : avr :=
  mkAvr (avr_sig c) (avr_lfuse c) (avr_hfuse c) (avr_efuse c) (avr_lock c)
        (avr_cal c) (avr_flash c) e (avr_rx c).

Definition avr_answer (c : avr) (b1 b2 b3 : Z) : Z :=
  if b1 =? 0x30 then nth (Z.to_nat (Z.land b3 3)) (avr_sig c) 0
  else if b1 =? 0x50 then (if b2 =? 0x08 then avr_efuse c else avr_lfuse c)
  else if b1 =? 0x58 then (if b2 =? 0x08 then avr_hfuse c else avr_lock c)
  else if b1 =? 0x38 then avr_cal c
  else if b1 =? 0x20 then avr_flash c (2 * (65536 * avr_ext c + 256 * b2 + b3))
  else if b1 =? 0x28 then avr_flash c (2 * (65536 * avr_ext c + 256 * b2 + b3) + 1)
  else b3.

Definition avr_transfer (c : avr) (b : Z) : avr * Z :=
  match avr_rx c with
  | [] => (avr_rx_set [b] c, 0)
  | [b1] => (avr_rx_set [b1; b] c, b1)
  | [b1; b2] => (avr_rx_set [b1; b2; b] c, b2)
  | b1 :: b2 :: b3 :: _ =>
      (avr_rx_set [] (if b1 =? 0x4D then avr_ext_set b3 c else c),
       avr_answer c b1 b2 b3)
  end.

Definition avr_target : Transport :=
  {| target := avr; transfer := avr_transfer |}.

(** An Arduino Uno (SCK on pin 13). *)
Definition uno : Board :=
  {| SCK := 13; compiledOn := "Compiled on (date) at (time) with Arduino IDE (version)." |}.

(** An ATmega328P as it comes on an Uno, with the flash given. *)
Definition atmega328p (hfuse : Z) (flash : Z -> Z) : avr :=
  mkAvr [0x1E; 0x95; 0x0F] 0xFF hfuse 0x05 0x0F 0x8D flash 0 [].

(** Flash as it leaves the factory. *)
Definition erased (addr : Z) : Z := 0xFF.

(** An Uno board on the bus, just powered on, and with nothing attached. *)
Definition uno_328p : @state avr_target :=
  @power_on avr_target (atmega328p 0xDE erased).

Definition nothing_connected : @state unconnected :=
  @power_on unconnected tt.

(** The same after getSignature. *)
Definition identified_328p : @state avr_target :=
  final (getSignature uno_328p).

(** A chip whose signature is in no data sheet. *)
Definition stranger : @state avr_target :=
  @power_on avr_target
    (mkAvr [0x1E; 0x00; 0x00] 0xFF 0xFF 0xFF 0xFF 0x00 erased 0 []).

(** * What the statements are written with *)

(** *** Events and addresses *)

(** The addresses [from], [from + 1], ..., [from + count - 1]. *)
Definition ascending (from count : Z) : list Z :=
  map (fun i => from + Z.of_nat i) (seq 0 (Z.to_nat count)).

(** Load-extended-address instructions among some events. *)
Definition isLoadExtended (e : event) : bool :=
  match e with
  | Isp b1 _ _ _ _ _ _ _ => b1 =? loadExtendedAddressByte
  | _ => false
  end.

Definition loadCount (evs : list event) : nat :=
  List.length (filter isLoadExtended evs).

(** Programming-enable instructions, and instructions of any kind. *)
Definition isEnable (e : event) : bool :=
  match e with
  | Isp b1 b2 b3 b4 _ _ _ _ =>
      (b1 =? progamEnable) && (b2 =? programAcknowledge) && (b3 =? 0) && (b4 =? 0)
  | _ => false
  end.

Definition isIsp (e : event) : bool :=
  match e with
  | Isp _ _ _ _ _ _ _ _ => true
  | _ => false
  end.

Section Vocabulary.

Context {tr : Transport} {bd : Board} {md : Md5}.

(** *** Entering programming mode *)

(** What startProgramming prints before it returns false (lines 517-518). *)
Definition failureMessage : list event :=
  [SerialPrint "" true;
   SerialPrint "Failed to enter programming mode. Double-check wiring!" true].

(** No instruction other than programming-enable among the events. *)
Definition ispOnlyEnable (evs : list event) : Prop :=
  Forall (fun e => isIsp e = true -> isEnable e = true) evs.

(** The three globals of the sketch are in [s'] what they are in [s]. *)
Definition sameGlobals (s s' : state) : Prop :=
  foundSig s' = foundSig s /\ lastAddressMSB s' = lastAddressMSB s
  /\ currentSignature s' = currentSignature s.

(** *** Finding the bootloader *)

(** What showYesNo prints. *)
Definition yesNo (b : bool) : string := if b then "Yes" else "No".

(** The instruction that reads the fuse a table entry points at. *)
Definition fuseCommand (fusenumber : Z) : Z * Z :=
  if fusenumber =? lowFuse then (readLowFuseByte, readLowFuseByteArg2)
  else if fusenumber =? highFuse then (readHighFuseByte, readHighFuseByteArg2)
  else (readExtendedFuseByte, readExtendedFuseByteArg2).

(** The cases of the switch of lines 344-362 other than the default. *)
Definition hasBootFuse (fusenumber : Z) : bool :=
  (fusenumber =? lowFuse) || (fusenumber =? highFuse) || (fusenumber =? extFuse).

(** What readBootloader prints once it has the two fuse bytes. *)
Definition bootloaderReport (hFuse whichFuse addr len : Z) : list event :=
  [SerialPrint "Bootloader in use: " false;
   SerialPrint (yesNo (bootloaderInUse whichFuse)) false; SerialPrint "" true;
   SerialPrint "EEPROM preserved through erase: " false;
   SerialPrint (yesNo (eepromPreserved hFuse)) false; SerialPrint "" true;
   SerialPrint "Watchdog timer always on: " false;
   SerialPrint (yesNo (watchdogAlwaysOn hFuse)) false; SerialPrint "" true;
   SerialPrint "Bootloader is " false; SerialNum len DEC false;
   SerialPrint " bytes starting at " false; SerialNum addr HEX true].

(** A table entry as its C type has it, with the fuse column holding what
    the struct says it holds (or the [NO_FUSE] mark). *)
Definition wellFormed (cs : signatureType) : Prop :=
  0 <= flashSize cs < 2 ^ 32
  /\ 0 <= baseBootSize cs < 2 ^ 16
  /\ In (fuseWithBootloaderSize cs) [lowFuse; highFuse; extFuse; NO_FUSE].

(** *** Reading flash *)

(** Flash reads among some events, what was sent and what came back. *)
Definition isFlashRead (e : event) : bool :=
  match e with
  | Isp b1 _ _ _ _ _ _ _ =>
      (b1 =? readProgramMemory) || (b1 =? Z.lor readProgramMemory 0x08)
  | _ => false
  end.

Definition instruction (e : event) : list Z :=
  match e with
  | Isp b1 b2 b3 b4 _ _ _ _ => [b1; b2; b3; b4]
  | _ => []
  end.

Definition answer (e : event) : Z :=
  match e with
  | Isp _ _ _ _ _ _ _ r4 => r4
  | _ => 0
  end.

(** The instruction that reads the flash byte at [addr]: the odd bytes are
    the high bytes of the words. *)
Definition readInstruction (addr : Z) : list Z :=
  [Z.lor readProgramMemory (if Z.odd addr then 0x08 else 0);
   highByte (Z.shiftr addr 1); lowByte (Z.shiftr addr 1); 0].

Definition flashReads (evs : list event) : list event := filter isFlashRead evs.

(** [mem == 0xFF], line 422. *)
Definition isErased (b : Z) : bool := b =? 0xFF.

(** *** The tables *)

(** [memcmp (dbEntry.md5sum, md5sum, sizeof md5sum) == 0], line 442. *)
Definition matchesSum (sum : list Z) (dbEntry : deviceDatabaseType) : bool :=
  memcmp0 (md5sum dbEntry) sum 16.

(** What printProgStr prints for a name, and lines 429-430 for a sum. *)
Definition nameText (name : string) : list event :=
  map (fun c => SerialPrint (String c EmptyString) false)
      (list_ascii_of_string name).

Definition sumText (sum : list Z) : list event :=
  map (fun i => SerialPrint (hexText (nth i sum 0)) false) (seq 0 16).

(** The three signature bytes as getSignature reads them (lines 534-538). *)
Definition signatureBytes (s : state) : list Z :=
  let r0 := program readSignatureByte 0 0 0 s in
  let r1 := program readSignatureByte 0 1 0 (final r0) in
  let r2 := program readSignatureByte 0 2 0 (final r1) in
  [value r0; value r1; value r2].

(** The first entry from index [j] on whose signature compares equal. *)
Fixpoint firstMatch (tbl : list signatureType) (j : Z) (sig_ : list Z)
  : option (Z * signatureType) :=
  match tbl with
  | [] => None
  | entry :: rest =>
      if memcmp0 sig_ (sig entry) 3 then Some (j, entry)
      else firstMatch rest (j + 1) sig_
  end.

(** *** Independence *)

(** Updates of the globals that leave the target alone. *)
Definition globalsUpdate (g : state -> state) : Prop :=
  forall s, chip (g s) = chip s /\ forall t, g (set_chip t s) = set_chip t (g s).

(** A computation that neither reads nor writes what [g] updates. *)
Definition commutesWith {A : Type} (g : state -> state) (m : M state A) : Prop :=
  forall s, m (g s) = mkOutcome (value (m s)) (g (final (m s))) (emitted (m s)).

(** The two updates getSignature makes. *)
Inductive signatureUpdate : (state -> state) -> Prop :=
| update_foundSig (j : Z) : signatureUpdate (set_foundSig j)
| update_currentSignature (c : signatureType) :
    signatureUpdate (set_currentSignature c).

(** The last entry of [signatures], line 174. *)
Definition ATmega8A : signatureType :=
  mkSig [0x1E; 0x93; 0x07] "ATmega8A" (8 * kb) 256 64 highFuse 1.

(** Events can be told apart. *)
Definition event_eq_dec (a b : event) : {a = b} + {a <> b}.
Proof.
  decide equality;
    solve [apply Z.eq_dec | apply bool_dec | apply string_dec].
Defined.

End Vocabulary.


(** * More of the sketch *)

(** *** Reading the dump back *)

(** The value of a hexadecimal digit as showHex writes it. *)
Definition hexValue (c : ascii) : Z :=
  let n := Z.of_N (N_of_ascii c) in
  if n <=? 57 then n - 48 else n - 55.

Definition isHexDigit (c : ascii) : bool :=
  let n := Z.of_N (N_of_ascii c) in
  ((48 <=? n) && (n <=? 57)) || ((65 <=? n) && (n <=? 70)).

(** Two digits and a space, read back as a byte. *)
Definition readHex (s : string) : option Z :=
  match s with
  | String a (String b (String " " EmptyString)) =>
      if isHexDigit a && isHexDigit b
      then Some (16 * hexValue a + hexValue b) else None
  | _ => None
  end.

(** *** Addresses *)

(** The byte address that a flash read instruction and the extended address
    byte loaded before it stand for in the sketch: bit 0 is in the
    instruction code, bits 1 to 16 are the two address bytes, and the
    extended byte is bits 16 to 23, so that bit 16 is sent twice. *)
Definition decodeAddress (msb : Z) (instr : list Z) : option Z :=
  match instr with
  | [b1; b2; b3; _] =>
      Some (131072 * (msb / 2) + 2 * (256 * b2 + b3)
            + (if b1 =? Z.lor readProgramMemory 0x08 then 1 else 0))
  | _ => None
  end.

(** How often a sequence changes value, counted from [prev]. *)
Fixpoint changes (prev : Z) (l : list Z) : nat :=
  match l with
  | [] => O
  | x :: rest =>
      if x =? prev then changes x rest else S (changes x rest)
  end.

(** *** Entering programming mode *)

(** The dots startProgramming prints, one for each failed attempt. *)
Definition isDot (e : event) : bool :=
  match e with
  | SerialPrint s false => String.eqb s "."
  | _ => false
  end.

(** What startProgramming prints after the loop (lines 524-525). *)
Definition enteredMessage : list event :=
  [SerialPrint "" true; SerialPrint "Entered programming mode OK." true].

(** *** What holds all through setup *)

(** The instructions that read something from the target: the signature, the
    calibration byte, the fuses and the lock byte. *)
Definition isReadCommand (b1 : Z) : bool :=
  (b1 =? readSignatureByte) || (b1 =? readCalibrationByte)
  || (b1 =? readLowFuseByte) || (b1 =? readHighFuseByte).

(** The instructions of the enum of lines 74-89, and no others: none of them
    erases or writes anything on the target. *)
Definition harmless (e : event) : bool :=
  match e with
  | Isp b1 b2 _ _ _ _ _ _ =>
      ((b1 =? progamEnable) && (b2 =? programAcknowledge))
      || isReadCommand b1
      || (b1 =? readProgramMemory) || (b1 =? Z.lor readProgramMemory 0x08)
      || (b1 =? loadExtendedAddressByte)
  | _ => true
  end.

(** The extended address byte the target was last sent, [init] if none. *)
Definition lastLoaded (init : Z) (evs : list event) : Z :=
  fold_left
    (fun cur e =>
       match e with
       | Isp b1 _ b3 _ _ _ _ _ =>
           if b1 =? loadExtendedAddressByte then b3 else cur
       | _ => cur
       end)
    evs init.

(** *** The dump *)

(** The address labels and the bytes among what the dump prints: the labels
    are the only numbers, the bytes the only pieces of three characters. *)
Definition isLabel (e : event) : bool :=
  match e with
  | SerialNum _ _ false => true
  | _ => false
  end.

Definition isByteText (e : event) : bool :=
  match e with
  | SerialPrint s false => (String.length s =? 3)%nat
  | _ => false
  end.

(** *** Names *)


(** *** The table of signatures *)

(** An entry that supports a bootloader gives, for each of the four
    multipliers, a region that lies in the flash and starts on a page. *)
Definition regionsFit (cs : signatureType) : bool :=
  (baseBootSize cs =? 0)
  || (hasBootFuse (fuseWithBootloaderSize cs)
      && forallb
           (fun m =>
              let len := wrap16 (baseBootSize cs * m) in
              let addr := wrap32 (flashSize cs - len) in
              (256 <=? len) && (len <=? 8192) && (0 <=? addr)
              && (addr + len =? flashSize cs)
              && (addr mod pageSize cs =? 0))
           [8; 4; 2; 1]).

Section MoreVocabulary.

Context {tr : Transport} {bd : Board} {md : Md5}.

(** A computation all of whose events pass [P]. *)
Definition emitsOnly (P : event -> bool) {A : Type} (m : M state A) : Prop :=
  forall s, forallb P (emitted (m s)) = true.

(** A computation that keeps [lastAddressMSB] equal to the extended address
    byte last sent. *)
Definition coherent {A : Type} (m : M state A) : Prop :=
  forall s,
    lastLoaded (lastAddressMSB s) (emitted (m s)) = lastAddressMSB (final (m s)).

End MoreVocabulary.

(** *** More targets *)

(** A target that is slow to wake up: it acknowledges the enable instruction
    the third time it comes (the eleventh byte on the bus) and answers 0 to
    everything else. *)
Definition sleepy : Transport :=
  {| target := nat;
     transfer := fun n b => (S n, if (n =? 10)%nat then 0x53 else 0) |}.

Definition sleepy_start : @state sleepy := @power_on sleepy 0%nat.

(** The Uno's chip taken for an ATtiny24, an entry without a bootloader. *)
Definition as_attiny24 : @state avr_target :=
  set_currentSignature (mkSig [0x1E; 0x91; 0x0B] "ATtiny24" (2 * kb) 0 32 NO_FUSE 0)
    uno_328p.

(** * Proofs *)

(** ** Steps of a computation *)

Section Sequencing.
Context {S A B : Type}.

Lemma bind_value (m : M S A) (k : A -> M S B) (s : S) :
  value (bind m k s) = value (k (value (m s)) (final (m s))).
Proof. reflexivity. Qed.

Lemma bind_final (m : M S A) (k : A -> M S B) (s : S) :
  final (bind m k s) = final (k (value (m s)) (final (m s))).
Proof. reflexivity. Qed.

Lemma bind_emitted (m : M S A) (k : A -> M S B) (s : S) :
  emitted (bind m k s)
  = emitted (m s) ++ emitted (k (value (m s)) (final (m s))).
Proof. reflexivity. Qed.

Lemma bind_congr (m : M S A) (k k' : A -> M S B) (s : S) :
  k (value (m s)) (final (m s)) = k' (value (m s)) (final (m s)) ->
  bind m k s = bind m k' s.
Proof. intros H. unfold bind. rewrite H. reflexivity. Qed.

Lemma outcome_eq (r : outcome S A) (a : A) (s : S) (evs : list event) :
  value r = a -> final r = s -> emitted r = evs -> r = mkOutcome a s evs.
Proof. destruct r. cbn. intros; subst; reflexivity. Qed.

End Sequencing.

Create Rewrite HintDb sketch.
#[local] Hint Rewrite @bind_value @bind_final @bind_emitted : sketch.

Ltac step :=
  repeat (progress (autorewrite with sketch;
                    cbn [value final emitted ret gets modify emit print
                         println newline when negb])).

(** ** Bits *)

Lemma land_pow2_testbit (w k : Z) :
  0 <= k -> (Z.land w (2 ^ k) =? 0) = negb (Z.testbit w k).
Proof.
  intros Hk.
  destruct (Z.testbit w k) eqn:E; simpl.
  - apply Z.eqb_neq. intros H.
    assert (Z.testbit (Z.land w (2 ^ k)) k = true) as T.
    { rewrite Z.land_spec, E, Z.pow2_bits_true; auto. }
    rewrite H, Z.bits_0 in T. discriminate.
  - apply Z.eqb_eq. apply Z.bits_inj'. intros n Hn.
    rewrite Z.land_spec, Z.bits_0.
    destruct (Z.eq_dec k n) as [->|Hne].
    + rewrite E. reflexivity.
    + rewrite (Z.pow2_bits_false k n) by assumption. apply andb_false_r.
Qed.

Lemma two_bits (w : Z) :
  Z.land (Z.shiftr w 1) 3 = Z.b2z (Z.testbit w 1) + 2 * Z.b2z (Z.testbit w 2).
Proof.
  change 3 with (Z.ones 2).
  rewrite Z.land_ones by lia.
  replace (Z.testbit w 1) with (Z.testbit (Z.shiftr w 1) 0)
    by (rewrite Z.shiftr_spec by lia; reflexivity).
  replace (Z.testbit w 2) with (Z.testbit (Z.shiftr w 1) 1)
    by (rewrite Z.shiftr_spec by lia; reflexivity).
  set (x := Z.shiftr w 1).
  rewrite (Z.testbit_spec' x 0), (Z.testbit_spec' x 1) by lia.
  change (2 ^ 0) with 1. change (2 ^ 1) with 2. change (2 ^ 2) with 4.
  rewrite Z.div_1_r.
  pose proof (Z.div_mod x 2 ltac:(lia)).
  pose proof (Z.mod_pos_bound x 2 ltac:(lia)).
  pose proof (Z.div_mod (x / 2) 2 ltac:(lia)).
  pose proof (Z.mod_pos_bound (x / 2) 2 ltac:(lia)).
  symmetry. apply Z.mod_unique_pos with (q := x / 2 / 2); lia.
Qed.

Section Proofs.
Context {tr : Transport} {bd : Board} {md : Md5}.

(** *** Instructions and the extended address *)

Lemma program_outcome (b1 b2 b3 b4 : Z) (s : state) :
  exists t r1 r2 r3 r4,
    program b1 b2 b3 b4 s
    = mkOutcome r4 (set_chip t s) [Isp b1 b2 b3 b4 r1 r2 r3 r4].
Proof.
  unfold program.
  destruct (transfer (chip s) b1) as [t1 r1].
  destruct (transfer t1 b2) as [t2 r2].
  destruct (transfer t2 b3) as [t3 r3].
  destruct (transfer t3 b4) as [t4 r4].
  exists t4, r1, r2, r3, r4. reflexivity.
Qed.

Lemma program_loadCount (b1 b2 b3 b4 : Z) (s : state) :
  loadCount (emitted (program b1 b2 b3 b4 s))
  = if b1 =? loadExtendedAddressByte then 1%nat else 0%nat.
Proof.
  destruct (program_outcome b1 b2 b3 b4 s) as (t & r1 & r2 & r3 & r4 & ->).
  unfold loadCount. simpl. destruct (b1 =? loadExtendedAddressByte); reflexivity.
Qed.

Lemma program_globals (b1 b2 b3 b4 : Z) (s : state) :
  let s' := final (program b1 b2 b3 b4 s) in
  foundSig s' = foundSig s /\ lastAddressMSB s' = lastAddressMSB s
  /\ currentSignature s' = currentSignature s.
Proof.
  destruct (program_outcome b1 b2 b3 b4 s) as (t & r1 & r2 & r3 & r4 & ->).
  simpl. auto.
Qed.

Lemma loadCount_app (a b : list event) :
  loadCount (a ++ b) = (loadCount a + loadCount b)%nat.
Proof. unfold loadCount. rewrite filter_app, length_app. reflexivity. Qed.

Lemma read_command_not_load (addr : Z) :
  (Z.lor readProgramMemory (if negb (Z.land addr 1 =? 0) then 0x08 else 0)
   =? loadExtendedAddressByte) = false.
Proof. destruct (negb (Z.land addr 1 =? 0)); reflexivity. Qed.

Lemma readFlash_loadCount (addr : Z) (s : state) :
  loadCount (emitted (readFlash addr s))
  = if addressMSB addr =? lastAddressMSB s then 0%nat else 1%nat.
Proof.
  unfold readFlash. step.
  destruct (addressMSB addr =? lastAddressMSB s); step.
  - rewrite !loadCount_app, program_loadCount, read_command_not_load.
    reflexivity.
  - rewrite !loadCount_app, !program_loadCount, read_command_not_load.
    reflexivity.
Qed.

Lemma readFlash_lastAddressMSB (addr : Z) (s : state) :
  lastAddressMSB (final (readFlash addr s)) = addressMSB addr.
Proof.
  unfold readFlash. step.
  destruct (addressMSB addr =? lastAddressMSB s) eqn:E; step.
  - apply Z.eqb_eq in E. rewrite E.
    apply (program_globals _ _ _ _ s).
  - match goal with |- lastAddressMSB (final (program _ _ _ _ ?s')) = _ =>
      rewrite (proj1 (proj2 (program_globals _ _ _ _ s'))) end.
    reflexivity.
Qed.

Lemma readAll_same_MSB (addrs : list Z) : forall s : state,
  Forall (fun a => addressMSB a = lastAddressMSB s) addrs ->
  loadCount (emitted (readAll addrs s)) = 0%nat
  /\ lastAddressMSB (final (readAll addrs s)) = lastAddressMSB s.
Proof.
  induction addrs as [|a rest IH]; intros s Hall.
  - split; reflexivity.
  - inversion Hall as [|? ? Ha Hrest]; subst.
    assert (lastAddressMSB (final (readFlash a s)) = lastAddressMSB s) as Hkeep.
    { rewrite readFlash_lastAddressMSB. exact Ha. }
    destruct (IH (final (readFlash a s))) as [Hc Hl].
    { rewrite Hkeep. exact Hrest. }
    cbn [readAll]. step.
    rewrite !loadCount_app, Hc, readFlash_loadCount.
    rewrite Ha, Z.eqb_refl.
    split; [reflexivity | ]. rewrite Hl. exact Hkeep.
Qed.

Lemma addressMSB_low (a : Z) : 0 <= a < 0x10000 -> addressMSB a = 0.
Proof.
  intros H. unfold addressMSB.
  rewrite Z.shiftr_div_pow2 by lia.
  rewrite Z.div_small by (change (2 ^ 16) with 65536; lia).
  reflexivity.
Qed.

Lemma ascending_In (from count a : Z) :
  In a (ascending from count) -> from <= a < from + count.
Proof.
  unfold ascending. rewrite in_map_iff.
  intros (i & <- & Hi). apply in_seq in Hi. lia.
Qed.

Lemma first_64K_no_load (s : state) :
  lastAddressMSB s = 0 ->
  loadCount (emitted (readAll (ascending 0 0x10000) s)) = 0%nat
  /\ lastAddressMSB (final (readAll (ascending 0 0x10000) s)) = 0.
Proof.
  intros H0.
  destruct (readAll_same_MSB (ascending 0 0x10000) s) as [Hc Hl].
  - apply Forall_forall. intros a Ha. apply ascending_In in Ha.
    rewrite H0. apply addressMSB_low. lia.
  - split; [exact Hc | rewrite Hl; exact H0].
Qed.

(** C1, as amended.  [readFlash] sends a load-extended-address instruction
    exactly when the most significant byte it works out from the address,
    [(addr >> 16) & 0xFF], differs from [lastAddressMSB], and it leaves
    [lastAddressMSB] equal to that byte.  [lastAddressMSB] starts at 0: reading
    the addresses 0x0000 to 0xFFFF in ascending order from the power-on state
    sends no load-extended-address instruction at all, and a read at 0x10000
    right after the one at 0xFFFF sends one, the first of the run. *)
Theorem readFlash_extended_address :
  (forall (addr : Z) (s : state),
      loadCount (emitted (readFlash addr s))
      = (if addressMSB addr =? lastAddressMSB s then 0%nat else 1%nat)
      /\ lastAddressMSB (final (readFlash addr s)) = addressMSB addr)
  /\ (forall t : target,
        let r := readAll (ascending 0x0000 0x10000) (power_on t) in
        loadCount (emitted r) = 0%nat
        /\ loadCount (emitted (readFlash 0x10000 (final r))) = 1%nat).
Proof.
  split.
  - intros addr s. split.
    + apply readFlash_loadCount.
    + apply readFlash_lastAddressMSB.
  - intros t r.
    destruct (first_64K_no_load (power_on t) eq_refl) as [Hc Hl].
    split; [exact Hc | ].
    rewrite readFlash_loadCount. fold r in Hl. rewrite Hl. reflexivity.
Qed.

(** *** Entering programming mode *)

Lemma enterAttempt_outcome (s : state) :
  exists t r1 r2 confirm r4,
    enterAttempt s
    = mkOutcome confirm (set_chip t s)
        [Delay 100; DigitalWrite SCK false; DigitalWrite RESET true; Delay 1;
         DigitalWrite RESET false; Delay 25;
         Isp progamEnable programAcknowledge 0 0 r1 r2 confirm r4].
Proof.
  unfold enterAttempt, bind, emit. cbn [value final emitted].
  destruct (transfer (chip s) progamEnable) as [t1 r1].
  destruct (transfer t1 programAcknowledge) as [t2 r2].
  destruct (transfer t2 0) as [t3 r3].
  destruct (transfer t3 0) as [t4 r4].
  exists t4, r1, r2, r3, r4. reflexivity.
Qed.

Lemma ispOnlyEnable_app (a b : list event) :
  ispOnlyEnable a -> ispOnlyEnable b -> ispOnlyEnable (a ++ b).
Proof. unfold ispOnlyEnable. intros. apply Forall_app. auto. Qed.

Lemma enterLoop_never (n : nat) : forall (fuel : nat) (timeout : Z) (s : state),
  (n <= 50)%nat ->
  timeout = 50 - Z.of_nat n ->
  (n < fuel)%nat ->
  (forall k, (k <= n)%nat ->
     value (enterAttempt (afterAttempts k s)) <> programAcknowledge) ->
  let r := enterLoop fuel timeout s in
  value r = Some false
  /\ List.length (filter isEnable (emitted r)) = S n
  /\ ispOnlyEnable (emitted r)
  /\ sameGlobals s (final r)
  /\ exists evs, emitted r = evs ++ failureMessage.
Proof.
  induction n as [|n IH]; intros fuel timeout s Hn Ht Hfuel Hnever r; subst r;
    (destruct fuel as [|fuel]; [lia | ]);
    pose proof (Hnever 0%nat ltac:(lia)) as H0; cbn [afterAttempts] in H0;
    cbn [enterLoop]; step;
    destruct (enterAttempt_outcome s) as (t & r1 & r2 & c & r4 & E);
    rewrite E in *; cbn [value final emitted] in *;
    apply Z.eqb_neq in H0; rewrite H0; step.
  - replace (timeout >=? ENTER_PROGRAMMING_ATTEMPTS) with true
      by (subst timeout; reflexivity).
    step. repeat split.
    + repeat apply ispOnlyEnable_app;
        repeat constructor; cbn; intros; congruence.
    + exists [Delay 100; DigitalWrite SCK false; DigitalWrite RESET true; Delay 1;
              DigitalWrite RESET false; Delay 25;
              Isp progamEnable programAcknowledge 0 0 r1 r2 c r4;
              SerialPrint "." false].
      reflexivity.
  - replace (timeout >=? ENTER_PROGRAMMING_ATTEMPTS) with false
      by (symmetry; rewrite Z.geb_leb; apply Z.leb_gt;
          unfold ENTER_PROGRAMMING_ATTEMPTS; lia).
    replace (wrap16 (timeout + 1)) with (50 - Z.of_nat n)
      by (unfold wrap16; rewrite Z.mod_small; lia).
    destruct (IH fuel (50 - Z.of_nat n) (set_chip t s)) as (Hv & Hc & Hi & Hg & evs & He);
      [lia | reflexivity | lia | | ].
    { intros k Hk. specialize (Hnever (S k) ltac:(lia)).
      cbn [afterAttempts] in Hnever. rewrite E in Hnever. exact Hnever. }
    repeat split.
    + exact Hv.
    + rewrite !filter_app, !length_app, Hc. reflexivity.
    + repeat apply ispOnlyEnable_app; try exact Hi;
        repeat constructor; cbn; intros; congruence.
    + apply Hg.
    + apply Hg.
    + apply Hg.
    + exists ([Delay 100; DigitalWrite SCK false; DigitalWrite RESET true; Delay 1;
               DigitalWrite RESET false; Delay 25;
               Isp progamEnable programAcknowledge 0 0 r1 r2 c r4;
               SerialPrint "." false] ++ evs).
      rewrite He. reflexivity.
Qed.

Lemma enterLoop_total (fuel : nat) : forall (timeout : Z) (s : state),
  0 <= timeout <= 50 ->
  (Z.to_nat (50 - timeout) < fuel)%nat ->
  value (enterLoop fuel timeout s) <> None.
Proof.
  induction fuel as [|fuel IH]; intros timeout s Ht Hfuel; [lia | ].
  cbn [enterLoop]. step.
  destruct (negb (value (enterAttempt s) =? programAcknowledge)); step;
    [ | discriminate].
  destruct (timeout >=? ENTER_PROGRAMMING_ATTEMPTS) eqn:E; step;
    [discriminate | ].
  rewrite Z.geb_leb in E. apply Z.leb_gt in E.
  unfold ENTER_PROGRAMMING_ATTEMPTS in E.
  replace (wrap16 (timeout + 1)) with (timeout + 1)
    by (unfold wrap16; rewrite Z.mod_small; lia).
  apply IH; lia.
Qed.

(** Whatever the target answers, startProgramming comes back: 51 passes
    through the loop are all it can make. *)
Lemma startProgramming_total (fuel : nat) (s : state) :
  (51 <= fuel)%nat ->
  exists ok : bool, value (startProgramming fuel s) = Some ok.
Proof.
  intros Hfuel.
  pose proof (enterLoop_total fuel 0 s ltac:(lia) ltac:(simpl; lia)) as H.
  unfold startProgramming. step.
  destruct (value (enterLoop fuel 0 s)) as [[|]|]; step.
  - exists true. reflexivity.
  - exists false. reflexivity.
  - congruence.
Qed.

(** C2.  If no pass through the loop of startProgramming gets
    [programAcknowledge] back as the third byte of the enable instruction,
    the pulse and the instruction are sent 51 times, the first attempt and
    [ENTER_PROGRAMMING_ATTEMPTS] = 50 retries, and startProgramming returns
    false.  setup then stops: the only instructions it sent are
    programming-enable instructions, so no signature byte, fuse or flash was
    read, the failure message is the last thing printed, and [foundSig],
    [lastAddressMSB] and [currentSignature] are as they were.  Fuel of 51 or
    more is enough for the loop to come to that end. *)
Theorem entry_timeout (fuel : nat) (s : state) :
  (51 <= fuel)%nat ->
  (forall k, (k <= 50)%nat ->
     value (enterAttempt (afterAttempts k s)) <> programAcknowledge) ->
  value (startProgramming fuel s) = Some false
  /\ List.length (filter isEnable (emitted (startProgramming fuel s))) = 51%nat
  /\ value (setup fuel s) = Some tt
  /\ ispOnlyEnable (emitted (setup fuel s))
  /\ (exists evs, emitted (setup fuel s) = evs ++ failureMessage)
  /\ sameGlobals s (final (setup fuel s)).
Proof.
  intros Hfuel Hnever.
  destruct (enterLoop_never 50 fuel 0 s) as (Hv & Hc & Hi & Hg & evs & He);
    [lia | reflexivity | lia | exact Hnever | ].
  unfold setup, startProgramming. step.
  rewrite Hv. step.
  repeat split.
  - rewrite !filter_app, !length_app, Hc. reflexivity.
  - repeat apply ispOnlyEnable_app; try exact Hi;
      repeat constructor; cbn; intros; congruence.
  - rewrite He.
    eexists. rewrite !app_nil_r, !app_assoc. reflexivity.
  - apply Hg.
  - apply Hg.
  - apply Hg.
Qed.

(** *** Finding the bootloader *)

Lemma showYesNo_outcome (b : bool) (s : state) :
  showYesNo b true s
  = mkOutcome tt s [SerialPrint (yesNo b) false; SerialPrint "" true].
Proof. destruct b; reflexivity. Qed.

Lemma readWhichFuse_outcome (fusenumber : Z) (s : state) :
  if hasBootFuse fusenumber then
    exists t w1 w2 w3 whichFuse,
      readWhichFuse fusenumber s
      = mkOutcome (Some whichFuse) (set_chip t s)
          [Isp (fst (fuseCommand fusenumber)) (snd (fuseCommand fusenumber))
               0 0 w1 w2 w3 whichFuse]
  else
    readWhichFuse fusenumber s
    = mkOutcome None s [SerialPrint "No bootloader fuse." true].
Proof.
  unfold hasBootFuse, readWhichFuse, fuseCommand.
  destruct (fusenumber =? lowFuse); cbn [orb fst snd].
  { destruct (program_outcome readLowFuseByte readLowFuseByteArg2 0 0 s)
      as (t & w1 & w2 & w3 & w & E).
    exists t, w1, w2, w3, w. unfold bind. rewrite E. reflexivity. }
  destruct (fusenumber =? highFuse); cbn [orb fst snd].
  { destruct (program_outcome readHighFuseByte readHighFuseByteArg2 0 0 s)
      as (t & w1 & w2 & w3 & w & E).
    exists t, w1, w2, w3, w. unfold bind. rewrite E. reflexivity. }
  destruct (fusenumber =? extFuse); cbn [orb fst snd].
  { destruct (program_outcome readExtendedFuseByte readExtendedFuseByteArg2 0 0 s)
      as (t & w1 & w2 & w3 & w & E).
    exists t, w1, w2, w3, w. unfold bind. rewrite E. reflexivity. }
  reflexivity.
Qed.

(** The three ways through the first part of readBootloader. *)
Lemma locateBootloader_cases (s : state) :
  let cs := currentSignature s in
  if baseBootSize cs =? 0 then
    locateBootloader s
    = mkOutcome None s [SerialPrint "No bootloader support." true]
  else
    exists t h1 h2 h3 hFuse,
      let hRead := Isp readHighFuseByte readHighFuseByteArg2 0 0 h1 h2 h3 hFuse in
      if hasBootFuse (fuseWithBootloaderSize cs) then
        exists t' w1 w2 w3 whichFuse,
          let len := wrap16 (baseBootSize cs * bootMultiplier whichFuse) in
          let addr := wrap32 (flashSize cs - len) in
          locateBootloader s
          = mkOutcome (Some (addr, len)) (set_chip t' s)
              (hRead
               :: Isp (fst (fuseCommand (fuseWithBootloaderSize cs)))
                      (snd (fuseCommand (fuseWithBootloaderSize cs)))
                      0 0 w1 w2 w3 whichFuse
               :: bootloaderReport hFuse whichFuse addr len)
      else
        locateBootloader s
        = mkOutcome None (set_chip t s)
            [hRead; SerialPrint "No bootloader fuse." true].
Proof.
  intros cs. destruct (baseBootSize cs =? 0) eqn:B.
  { unfold locateBootloader.
    apply outcome_eq; step; fold cs; rewrite B; reflexivity. }
  destruct (program_outcome readHighFuseByte readHighFuseByteArg2 0 0 s)
    as (t & h1 & h2 & h3 & hFuse & E).
  exists t, h1, h2, h3, hFuse. cbn zeta.
  pose proof (readWhichFuse_outcome (fuseWithBootloaderSize cs) (set_chip t s)) as W.
  destruct (hasBootFuse (fuseWithBootloaderSize cs)).
  - destruct W as (t' & w1 & w2 & w3 & whichFuse & W).
    exists t', w1, w2, w3, whichFuse.
    unfold locateBootloader.
    apply outcome_eq; step; fold cs; rewrite B; step; rewrite E;
      cbn [value final emitted]; rewrite W; cbn [value final emitted]; step;
      rewrite ?showYesNo_outcome; reflexivity.
  - unfold locateBootloader.
    apply outcome_eq; step; fold cs; rewrite B; step; rewrite E;
      cbn [value final emitted]; rewrite W; reflexivity.
Qed.

Lemma bootMultiplier_range (whichFuse : Z) :
  In (bootMultiplier whichFuse) [8; 4; 2; 1].
Proof.
  unfold bootMultiplier.
  destruct (Z.land (Z.shiftr whichFuse 1) 3) as [|p|p]; cbn; auto.
  destruct p as [[p|p|]|[p|p|]|]; cbn; auto.
Qed.

Lemma locateBootloader_none_iff (s : state) :
  value (locateBootloader s) = None
  <-> baseBootSize (currentSignature s) = 0
      \/ hasBootFuse (fuseWithBootloaderSize (currentSignature s)) = false.
Proof.
  pose proof (locateBootloader_cases s) as C. cbn zeta in C.
  destruct (baseBootSize (currentSignature s) =? 0) eqn:B.
  - rewrite C. apply Z.eqb_eq in B. cbn. tauto.
  - apply Z.eqb_neq in B.
    destruct C as (t & h1 & h2 & h3 & hFuse & C).
    destruct (hasBootFuse (fuseWithBootloaderSize (currentSignature s))).
    + destruct C as (t' & w1 & w2 & w3 & whichFuse & ->). cbn.
      split; [discriminate | intros [?|?]; [contradiction | discriminate]].
    + rewrite C. cbn. tauto.
Qed.

Lemma wrap32_start_plus_length (flash len : Z) :
  0 <= flash < 2 ^ 32 -> wrap32 (wrap32 (flash - len) + len) = flash.
Proof.
  intros H. unfold wrap32.
  rewrite Z.add_mod_idemp_l by lia.
  replace (flash - len + len) with flash by lia.
  apply Z.mod_small. exact H.
Qed.

(** C3.  For a table entry of the shape the struct describes (fields within
    their C types, the fuse column one of [lowFuse], [highFuse], [extFuse] or
    [NO_FUSE]), the first part of readBootloader gives no region exactly when
    [baseBootSize] is 0 or the fuse column is [NO_FUSE].  In every other case
    the fuse byte [whichFuse] is what the read of the selected fuse answered,
    [len] is the multiplier decoded from it times [baseBootSize], [addr] is
    [flashSize - len] and [addr + len == flashSize], all in the arithmetic of
    [unsigned int] and [unsigned long]; when eight times [baseBootSize] fits
    in the flash and in an [unsigned int], as it does for every entry of
    [signatures], the three equations hold over the integers as well. *)
Theorem bootloader_region (s : state) :
  let cs := currentSignature s in
  let r := locateBootloader s in
  wellFormed cs ->
  (value r = None
   <-> baseBootSize cs = 0 \/ fuseWithBootloaderSize cs = NO_FUSE)
  /\ (forall addr len : Z,
        value r = Some (addr, len) ->
        exists w1 w2 w3 whichFuse,
          nth_error (emitted r) 1
          = Some (Isp (fst (fuseCommand (fuseWithBootloaderSize cs)))
                      (snd (fuseCommand (fuseWithBootloaderSize cs)))
                      0 0 w1 w2 w3 whichFuse)
          /\ len = wrap16 (bootMultiplier whichFuse * baseBootSize cs)
          /\ addr = wrap32 (flashSize cs - len)
          /\ wrap32 (addr + len) = flashSize cs
          /\ (8 * baseBootSize cs <= flashSize cs ->
              8 * baseBootSize cs < 2 ^ 16 ->
              len = bootMultiplier whichFuse * baseBootSize cs
              /\ addr = flashSize cs - len
              /\ addr + len = flashSize cs)).
Proof.
  intros cs r (Hflash & Hbase & Hsel). split.
  - unfold r. rewrite locateBootloader_none_iff. fold cs.
    assert (hasBootFuse (fuseWithBootloaderSize cs) = false
            <-> fuseWithBootloaderSize cs = NO_FUSE) as ->; [ | tauto].
    cbn in Hsel.
    destruct Hsel as [<-|[<-|[<-|[<-|[]]]]]; split; intros H;
      solve [reflexivity | vm_compute in H; discriminate H].
  - intros addr len Hv.
    pose proof (locateBootloader_cases s) as C. cbn zeta in C. fold cs in C.
    destruct (baseBootSize cs =? 0).
    { unfold r in Hv. rewrite C in Hv. discriminate. }
    destruct C as (t & h1 & h2 & h3 & hFuse & C).
    destruct (hasBootFuse (fuseWithBootloaderSize cs)).
    2:{ unfold r in Hv. rewrite C in Hv. discriminate. }
    destruct C as (t' & w1 & w2 & w3 & whichFuse & C).
    unfold r in *. rewrite C in *. cbn [value emitted nth_error] in *.
    injection Hv as <- <-.
    exists w1, w2, w3, whichFuse.
    rewrite (Z.mul_comm (bootMultiplier whichFuse)).
    split; [reflexivity | ]. split; [reflexivity | ]. split; [reflexivity | ].
    split; [apply wrap32_start_plus_length; exact Hflash | ].
    intros Hfit Hsmall.
    assert (1 <= bootMultiplier whichFuse <= 8) as Hm.
    { pose proof (bootMultiplier_range whichFuse) as Hin. cbn in Hin.
      destruct Hin as [<-|[<-|[<-|[<-|[]]]]]; lia. }
    assert (wrap16 (baseBootSize cs * bootMultiplier whichFuse)
            = baseBootSize cs * bootMultiplier whichFuse) as ->.
    { unfold wrap16. apply Z.mod_small. nia. }
    assert (wrap32 (flashSize cs - baseBootSize cs * bootMultiplier whichFuse)
            = flashSize cs - baseBootSize cs * bootMultiplier whichFuse) as ->.
    { unfold wrap32. apply Z.mod_small. nia. }
    repeat split; lia.
Qed.

(** C4.  The switch of lines 376-382 turns bits 2 and 1 of the selected fuse
    byte into the multiplier: 00 gives 8, 01 gives 4, 10 gives 2 and 11
    gives 1, for every value of the fuse byte. *)
Theorem bootMultiplier_decode (whichFuse : Z) :
  bootMultiplier whichFuse
  = match Z.testbit whichFuse 2, Z.testbit whichFuse 1 with
    | false, false => 8
    | false, true => 4
    | true, false => 2
    | true, true => 1
    end.
Proof.
  unfold bootMultiplier. rewrite two_bits.
  destruct (Z.testbit whichFuse 2), (Z.testbit whichFuse 1); reflexivity.
Qed.

(** C8.  The three flags: "Bootloader in use" is true exactly when bit 0 of
    the selected fuse byte is 0, "EEPROM preserved through erase" exactly when
    bit 3 of the high fuse byte is 0, and "Watchdog timer always on" exactly
    when bit 4 of the high fuse byte is 0; and these are the values
    readBootloader prints, for the fuse bytes that its two reads returned. *)
Theorem fuse_flags :
  (forall whichFuse hFuse : Z,
      bootloaderInUse whichFuse = negb (Z.testbit whichFuse 0)
      /\ eepromPreserved hFuse = negb (Z.testbit hFuse 3)
      /\ watchdogAlwaysOn hFuse = negb (Z.testbit hFuse 4))
  /\ (forall (s : state) (where_ : Z * Z),
        let r := locateBootloader s in
        value r = Some where_ ->
        exists h1 h2 h3 hFuse c1 c2 w1 w2 w3 whichFuse,
          firstn 11 (emitted r)
          = [Isp readHighFuseByte readHighFuseByteArg2 0 0 h1 h2 h3 hFuse;
             Isp c1 c2 0 0 w1 w2 w3 whichFuse;
             SerialPrint "Bootloader in use: " false;
             SerialPrint (yesNo (negb (Z.testbit whichFuse 0))) false;
             SerialPrint "" true;
             SerialPrint "EEPROM preserved through erase: " false;
             SerialPrint (yesNo (negb (Z.testbit hFuse 3))) false;
             SerialPrint "" true;
             SerialPrint "Watchdog timer always on: " false;
             SerialPrint (yesNo (negb (Z.testbit hFuse 4))) false;
             SerialPrint "" true]
          /\ (c1, c2) = fuseCommand (fuseWithBootloaderSize (currentSignature s))).
Proof.
  assert (forall whichFuse hFuse : Z,
      bootloaderInUse whichFuse = negb (Z.testbit whichFuse 0)
      /\ eepromPreserved hFuse = negb (Z.testbit hFuse 3)
      /\ watchdogAlwaysOn hFuse = negb (Z.testbit hFuse 4)) as Flags.
  { intros whichFuse hFuse.
    unfold bootloaderInUse, eepromPreserved, watchdogAlwaysOn, bit.
    rewrite !Z.shiftl_1_l.
    repeat split; apply land_pow2_testbit; lia. }
  split; [exact Flags | ].
  intros s where_ r Hv.
  pose proof (locateBootloader_cases s) as C. cbn zeta in C.
  destruct (baseBootSize (currentSignature s) =? 0).
  { unfold r in Hv. rewrite C in Hv. discriminate. }
  destruct C as (t & h1 & h2 & h3 & hFuse & C).
  destruct (hasBootFuse (fuseWithBootloaderSize (currentSignature s))).
  2:{ unfold r in Hv. rewrite C in Hv. discriminate. }
  destruct C as (t' & w1 & w2 & w3 & whichFuse & C).
  exists h1, h2, h3, hFuse.
  exists (fst (fuseCommand (fuseWithBootloaderSize (currentSignature s)))).
  exists (snd (fuseCommand (fuseWithBootloaderSize (currentSignature s)))).
  exists w1, w2, w3, whichFuse.
  unfold r. rewrite C. cbn [emitted firstn bootloaderReport].
  destruct (Flags whichFuse hFuse) as (-> & -> & ->).
  split; [reflexivity | ].
  destruct (fuseCommand _); reflexivity.
Qed.

(** *** The MD5 pass *)

Lemma odd_land (addr : Z) : negb (Z.land addr 1 =? 0) = Z.odd addr.
Proof.
  change 1 with (2 ^ 0) at 1.
  rewrite land_pow2_testbit by lia.
  rewrite negb_involutive. apply Z.bit0_odd.
Qed.

Lemma flashReads_app (a b : list event) :
  flashReads (a ++ b) = flashReads a ++ flashReads b.
Proof. apply filter_app. Qed.

Lemma readFlash_reads (addr : Z) (s : state) :
  exists e,
    flashReads (emitted (readFlash addr s)) = [e]
    /\ instruction e = readInstruction addr
    /\ answer e = value (readFlash addr s).
Proof.
  unfold readFlash. step. rewrite odd_land.
  match goal with
  | |- context [program ?a ?b ?c ?d ?st] =>
      destruct (program_outcome a b c d st) as (t & r1 & r2 & r3 & r4 & E)
  end.
  exists (Isp (Z.lor readProgramMemory (if Z.odd addr then 8 else 0))
              (highByte (Z.shiftr addr 1)) (lowByte (Z.shiftr addr 1)) 0
              r1 r2 r3 r4).
  rewrite E. cbn [value emitted].
  rewrite !flashReads_app.
  assert (flashReads
            (emitted
               (when (negb (addressMSB addr =? lastAddressMSB s))
                  (program loadExtendedAddressByte 0 (addressMSB addr) 0 ;;
                   modify (set_lastAddressMSB (addressMSB addr))) s)) = []) as ->.
  { destruct (addressMSB addr =? lastAddressMSB s); step; [reflexivity | ].
    destruct (program_outcome loadExtendedAddressByte 0 (addressMSB addr) 0 s)
      as (t' & a1 & a2 & a3 & a4 & ->).
    reflexivity. }
  split; [ | split; reflexivity].
  destruct (Z.odd addr); reflexivity.
Qed.

Lemma readAll_reads (addrs : list Z) : forall s : state,
  map instruction (flashReads (emitted (readAll addrs s)))
  = map readInstruction addrs
  /\ map answer (flashReads (emitted (readAll addrs s)))
     = value (readAll addrs s).
Proof.
  induction addrs as [|a rest IH]; intros s.
  - split; reflexivity.
  - cbn [readAll]. step. rewrite !flashReads_app.
    destruct (readFlash_reads a s) as (e & -> & Hi & Ha).
    destruct (IH (final (readFlash a s))) as [IHi IHa].
    cbn [flashReads emitted filter app map].
    rewrite !map_app, IHi, IHa, Hi, Ha. cbn [map]. rewrite !app_nil_r.
    split; reflexivity.
Qed.

Lemma readAll_length (addrs : list Z) : forall s : state,
  List.length (value (readAll addrs s)) = List.length addrs.
Proof.
  induction addrs as [|a rest IH]; intros s; [reflexivity | ].
  cbn [readAll]. step. cbn [List.length]. rewrite IH. reflexivity.
Qed.

Lemma ascending_succ (from : Z) (n : nat) :
  ascending from (Z.of_nat (S n)) = from :: ascending (from + 1) (Z.of_nat n).
Proof.
  unfold ascending. rewrite !Nat2Z.id. cbn [seq map].
  rewrite Z.add_0_r. f_equal.
  rewrite <- seq_shift, map_map.
  apply map_ext. intros i. lia.
Qed.

Lemma md5Loop_readAll (n : nat) :
  forall (addr : Z) (ctx : md5_context) (allFF : bool) (s : state),
    0 <= addr -> addr + Z.of_nat n <= 2 ^ 32 ->
    let r := md5Loop n addr ctx allFF s in
    let reads := readAll (ascending addr (Z.of_nat n)) s in
    value r = (md5_update ctx (value reads),
               allFF && forallb isErased (value reads))
    /\ final r = final reads
    /\ emitted r = emitted reads.
Proof.
  induction n as [|n IH]; intros addr ctx allFF s H0 Hend r reads.
  - subst r reads. cbn. rewrite md5_update_nil, andb_true_r. auto.
  - subst r reads. rewrite ascending_succ. cbn [md5Loop readAll]. step.
    set (s1 := final (readFlash addr s)).
    set (mem := value (readFlash addr s)).
    assert (md5Loop n (wrap32 (addr + 1)) (md5_update ctx [mem])
              (if negb (mem =? 0xFF) then false else allFF) s1
            = md5Loop n (addr + 1) (md5_update ctx [mem])
                (if negb (mem =? 0xFF) then false else allFF) s1) as ->.
    { destruct n; [reflexivity | ].
      unfold wrap32. rewrite Z.mod_small by lia. reflexivity. }
    destruct (IH (addr + 1) (md5_update ctx [mem])
                 (if negb (mem =? 0xFF) then false else allFF) s1)
      as (Hv & Hf & He); [lia | lia | ].
    rewrite Hv, Hf, He.
    rewrite md5_update_app. cbn [app forallb].
    unfold isErased at 2.
    split; [ | split].
    + f_equal. destruct (mem =? 0xFF), allFF; reflexivity.
    + reflexivity.
    + rewrite app_nil_r. reflexivity.
Qed.

Lemma forallb_isErased (bytes : list Z) :
  forallb isErased bytes = true <-> Forall (fun b => b = 0xFF) bytes.
Proof.
  rewrite forallb_forall, Forall_forall.
  unfold isErased. split; intros H b Hb; apply Z.eqb_eq; auto.
Qed.

Lemma all_erased_repeat (bytes : list Z) :
  Forall (fun b => b = 0xFF) bytes -> bytes = repeat 0xFF (List.length bytes).
Proof.
  induction 1 as [|b rest Hb _ IH]; [reflexivity | ].
  cbn [List.length repeat]. rewrite <- IH, Hb. reflexivity.
Qed.

(** C5.  The MD5 pass over the region of [len] bytes at [addr] sends exactly
    [len] flash read instructions, those of the addresses [addr], [addr + 1],
    ..., [addr + len - 1] in this order, whatever the bytes are.  [allFF] comes
    out true exactly when every byte read was 0xFF, the sum is the MD5 sum of
    the bytes read, and when all of them were 0xFF the result is the MD5 sum
    of [len] bytes 0xFF together with [allFF = true]. *)
Theorem digest_pass (addr len : Z) (s : state) :
  0 <= addr -> 0 <= len -> addr + len <= 2 ^ 32 ->
  let r := digestBootloader addr len s in
  let reads := flashReads (emitted r) in
  let bytes := map answer reads in
  List.length reads = Z.to_nat len
  /\ map instruction reads = map readInstruction (ascending addr len)
  /\ (snd (value r) = true <-> Forall (fun b => b = 0xFF) bytes)
  /\ fst (value r) = md5_of bytes
  /\ (Forall (fun b => b = 0xFF) bytes ->
      value r = (md5_of (repeat 0xFF (Z.to_nat len)), true)).
Proof.
  intros H0 Hlen Hend r reads bytes.
  destruct (md5Loop_readAll (Z.to_nat len) addr md5_starts true s)
    as (Hv & Hf & He); [lia | lia | ].
  rewrite Z2Nat.id in Hv, Hf, He by lia.
  destruct (readAll_reads (ascending addr len) s) as [Hi Ha].
  assert (emitted r = emitted (readAll (ascending addr len) s)) as Hemit.
  { unfold r, digestBootloader. step. rewrite He. apply app_nil_r. }
  assert (value r = (md5_of bytes, forallb isErased bytes)) as Hval.
  { unfold r, digestBootloader. step. rewrite Hv. cbn [fst snd andb].
    unfold bytes, reads. rewrite Hemit, Ha. reflexivity. }
  assert (List.length reads = Z.to_nat len) as Hcount.
  { rewrite <- (length_map answer). fold bytes. unfold bytes, reads.
    rewrite Hemit, Ha, readAll_length.
    unfold ascending. rewrite length_map, length_seq. reflexivity. }
  split; [exact Hcount | ].
  split; [unfold reads; rewrite Hemit; exact Hi | ].
  rewrite Hval. cbn [fst snd].
  split; [apply forallb_isErased | ].
  split; [reflexivity | ].
  intros Hall.
  rewrite (proj2 (forallb_isErased bytes) Hall).
  rewrite (all_erased_repeat bytes Hall) at 1.
  unfold bytes at 1. rewrite length_map, Hcount. reflexivity.
Qed.

(** *** The table of known bootloaders *)

Lemma bytes_eqb_eq (a : list Z) : forall b, bytes_eqb a b = true <-> a = b.
Proof.
  induction a as [|x a IH]; intros [|y b]; cbn; try (split; congruence).
  rewrite andb_true_iff, Z.eqb_eq, IH. split.
  - intros [-> ->]. reflexivity.
  - intros H. injection H. auto.
Qed.

Lemma memcmp0_exact (a b : list Z) (n : nat) :
  List.length a = n -> List.length b = n ->
  (memcmp0 a b n = true <-> a = b).
Proof.
  intros Ha Hb. unfold memcmp0.
  rewrite !firstn_all2 by lia. apply bytes_eqb_eq.
Qed.

Lemma printProgStr_outcome (str : string) : forall s : state,
  printProgStr str s = mkOutcome tt s (nameText str).
Proof.
  induction str as [|c rest IH]; intros s; [reflexivity | ].
  cbn [printProgStr]. apply outcome_eq; step; rewrite IH; reflexivity.
Qed.

Lemma showBytes_outcome (n : nat) : forall (i : nat) (a : list Z) (s : state),
  showBytes n i a s
  = mkOutcome tt s
      (map (fun i => SerialPrint (hexText (nth i a 0)) false) (seq i n)).
Proof.
  induction n as [|n IH]; intros i a s; [reflexivity | ].
  cbn [showBytes]. apply outcome_eq; unfold showHex; step; rewrite IH;
    reflexivity.
Qed.

Lemma searchDatabase_find (sum : list Z) (db : list deviceDatabaseType) :
  forall s : state,
    searchDatabase db sum s
    = match find (matchesSum sum) db with
      | Some dbEntry =>
          mkOutcome true s
            (SerialPrint "Bootloader name: " false
             :: nameText (filename dbEntry) ++ [SerialPrint "" true])
      | None => mkOutcome false s []
      end.
Proof.
  induction db as [|e rest IH]; intros s; [reflexivity | ].
  cbn [searchDatabase find]. unfold matchesSum at 1.
  destruct (memcmp0 (md5sum e) sum 16); cbn [negb].
  - apply outcome_eq; step; rewrite ?printProgStr_outcome; reflexivity.
  - apply IH.
Qed.

Lemma deviceDatabase_sums :
  Forall (fun e => List.length (md5sum e) = 16%nat) deviceDatabase.
Proof. repeat constructor. Qed.

(** C6.  The last part of readBootloader always prints the 16 bytes of the
    sum first.  With [allFF] set it then prints "No bootloader (all 0xFF)" and
    does not look at the table.  Otherwise it prints the name of the first
    entry of [deviceDatabase] whose 16 bytes compare equal to the sum, or
    "Bootloader MD5 sum not known." when there is none.  For a sum of 16 bytes
    comparing equal is being the same 16 bytes. *)
Theorem bootloader_identification (sum : list Z) (allFF : bool) (s : state) :
  let r := identifyBootloader sum allFF s in
  final r = s
  /\ emitted r
     = sumText sum ++ [SerialPrint "" true]
       ++ (if allFF then [SerialPrint "No bootloader (all 0xFF)" true]
           else match find (matchesSum sum) deviceDatabase with
                | Some dbEntry =>
                    SerialPrint "Bootloader name: " false
                    :: nameText (filename dbEntry) ++ [SerialPrint "" true]
                | None => [SerialPrint "Bootloader MD5 sum not known." true]
                end)
  /\ (forall dbEntry,
        In dbEntry deviceDatabase ->
        List.length sum = 16%nat ->
        (matchesSum sum dbEntry = true <-> md5sum dbEntry = sum)).
Proof.
  intros r. unfold r, identifyBootloader.
  split; [ | split].
  - step. rewrite showBytes_outcome. cbn [final].
    destruct allFF; [reflexivity | ]. step.
    rewrite searchDatabase_find.
    destruct (find (matchesSum sum) deviceDatabase); reflexivity.
  - step. rewrite showBytes_outcome. cbn [final emitted]. fold (sumText sum).
    f_equal. f_equal.
    destruct allFF; [reflexivity | ]. step.
    rewrite searchDatabase_find.
    destruct (find (matchesSum sum) deviceDatabase); cbn [value final emitted];
      step; [ | reflexivity].
    rewrite app_nil_r. reflexivity.
  - intros dbEntry Hin Hlen. unfold matchesSum.
    apply memcmp0_exact; [ | exact Hlen].
    exact (proj1 (Forall_forall _ _) deviceDatabase_sums dbEntry Hin).
Qed.

(** *** The signature table *)

Lemma last_cons_default {A : Type} (l : list A) :
  forall a d d' : A, last (a :: l) d = last (a :: l) d'.
Proof.
  induction l as [|b l IH]; intros a d d'; [reflexivity | ].
  change (last (b :: l) d = last (b :: l) d'). apply IH.
Qed.

Lemma scanSignatures_final (sig_ : list Z) (tbl : list signatureType) :
  forall (j : Z) (s : state),
    let s' := final (scanSignatures tbl j sig_ s) in
    chip s' = chip s /\ lastAddressMSB s' = lastAddressMSB s
    /\ match firstMatch tbl j sig_ with
       | Some (k, entry) => foundSig s' = k /\ currentSignature s' = entry
       | None => foundSig s' = foundSig s
                 /\ currentSignature s' = last tbl (currentSignature s)
       end.
Proof.
  induction tbl as [|entry rest IH]; intros j s; [cbn; auto | ].
  cbn [scanSignatures firstMatch]. step.
  cbn [currentSignature set_currentSignature].
  destruct (memcmp0 sig_ (sig entry) 3); step.
  - cbn. auto.
  - destruct (IH (j + 1) (set_currentSignature entry s)) as (Hc & Hl & Hm).
    split; [exact Hc | ]. split; [exact Hl | ].
    destruct (firstMatch rest (j + 1) sig_) as [[k e]|]; [exact Hm | ].
    destruct Hm as [Hf Hcs]. split; [exact Hf | ].
    rewrite Hcs. cbn [currentSignature set_currentSignature].
    destruct rest as [|e2 rest]; [reflexivity | ].
    change (last (entry :: e2 :: rest) (currentSignature s))
      with (last (e2 :: rest) (currentSignature s)).
    apply last_cons_default.
Qed.

Lemma firstMatch_none (sig_ : list Z) (tbl : list signatureType) :
  forall j : Z,
    (forall entry, In entry tbl -> memcmp0 sig_ (sig entry) 3 = false) ->
    firstMatch tbl j sig_ = None.
Proof.
  induction tbl as [|entry rest IH]; intros j H; [reflexivity | ].
  cbn [firstMatch]. rewrite (H entry (or_introl eq_refl)).
  apply IH. intros e He. apply H. right. exact He.
Qed.

Lemma set_foundSig_update (j : Z) : globalsUpdate (set_foundSig j).
Proof. intros s. split; reflexivity. Qed.

Lemma set_currentSignature_update (c : signatureType) :
  globalsUpdate (set_currentSignature c).
Proof. intros s. split; reflexivity. Qed.

Lemma program_commutes (g : state -> state) (b1 b2 b3 b4 : Z) :
  globalsUpdate g -> commutesWith g (program b1 b2 b3 b4).
Proof.
  intros Hg s. unfold program. rewrite (proj1 (Hg s)).
  destruct (transfer (chip s) b1) as [t1 r1].
  destruct (transfer t1 b2) as [t2 r2].
  destruct (transfer t2 b3) as [t3 r3].
  destruct (transfer t3 b4) as [t4 r4].
  cbn [value final emitted]. rewrite (proj2 (Hg s)). reflexivity.
Qed.

Lemma getSignature_final (s : state) :
  exists s0,
    final (getSignature s)
    = final (scanSignatures signatures 0 (signatureBytes s) s0)
    /\ foundSig s0 = -1.
Proof.
  pose proof (program_commutes (set_foundSig (-1)) readSignatureByte 0 0 0
                (set_foundSig_update (-1))) as P0.
  pose proof (program_commutes (set_foundSig (-1)) readSignatureByte 0 1 0
                (set_foundSig_update (-1))) as P1.
  pose proof (program_commutes (set_foundSig (-1)) readSignatureByte 0 2 0
                (set_foundSig_update (-1))) as P2.
  unfold getSignature, signatureBytes, showHex. step.
  rewrite P0. cbn [value final]. rewrite P1. cbn [value final].
  rewrite P2. cbn [value final].
  eexists. split; [reflexivity | reflexivity].
Qed.

(** *** What does not look at the signature globals *)

Lemma signatureUpdate_globals (g : state -> state) :
  signatureUpdate g -> globalsUpdate g.
Proof.
  intros [j|c]; [apply set_foundSig_update | apply set_currentSignature_update].
Qed.

Section Commuting.

Variable g : state -> state.
Hypothesis Hg : signatureUpdate g.

Lemma commutes_ret {A : Type} (a : A) : commutesWith g (ret a).
Proof. intros s. reflexivity. Qed.

Lemma commutes_emit (e : event) : commutesWith g (emit e).
Proof. intros s. reflexivity. Qed.

Lemma commutes_bind {A B : Type} (m : M state A) (k : A -> M state B) :
  commutesWith g m -> (forall a, commutesWith g (k a)) ->
  commutesWith g (bind m k).
Proof.
  intros Hm Hk s. unfold bind. rewrite Hm. cbn [value final emitted].
  rewrite Hk. reflexivity.
Qed.

Lemma commutes_when (c : bool) (m : M state unit) :
  commutesWith g m -> commutesWith g (when c m).
Proof. intros Hm. destruct c; [exact Hm | apply commutes_ret]. Qed.

Lemma commutes_program (b1 b2 b3 b4 : Z) :
  commutesWith g (program b1 b2 b3 b4).
Proof. apply program_commutes, signatureUpdate_globals, Hg. Qed.

Lemma commutes_lastAddressMSB : commutesWith g (gets lastAddressMSB).
Proof. destruct Hg; intros s; reflexivity. Qed.

Lemma commutes_set_lastAddressMSB (b : Z) :
  commutesWith g (modify (set_lastAddressMSB b)).
Proof. destruct Hg; intros s; reflexivity. Qed.

Ltac commute :=
  repeat match goal with
    | |- commutesWith _ (bind _ _) => apply commutes_bind; [ | intros ? ]
    | |- commutesWith _ (when _ _) => apply commutes_when
    | |- commutesWith _ (ret _) => apply commutes_ret
    | |- commutesWith _ (emit _) => apply commutes_emit
    | |- commutesWith _ (print _) => apply commutes_emit
    | |- commutesWith _ (println _) => apply commutes_emit
    | |- commutesWith _ newline => apply commutes_emit
    | |- commutesWith _ (program _ _ _ _) => apply commutes_program
    | |- commutesWith _ (gets lastAddressMSB) => apply commutes_lastAddressMSB
    | |- commutesWith _ (modify (set_lastAddressMSB _)) =>
        apply commutes_set_lastAddressMSB
    end.

Lemma commutes_readFlash (addr : Z) : commutesWith g (readFlash addr).
Proof. unfold readFlash. commute. Qed.

Lemma commutes_showHex (b : Z) (nl : bool) : commutesWith g (showHex b nl).
Proof. unfold showHex. commute. Qed.

Lemma commutes_hexDump (n : nat) :
  forall i addr : Z, commutesWith g (hexDump n i addr).
Proof.
  induction n as [|n IH]; intros i addr; cbn [hexDump].
  - apply commutes_ret.
  - commute;
      solve [apply commutes_readFlash | apply commutes_showHex | apply IH].
Qed.

Lemma commutes_getFuseBytes : commutesWith g getFuseBytes.
Proof. unfold getFuseBytes. commute; apply commutes_showHex. Qed.

Lemma commutes_readProgram : commutesWith g readProgram.
Proof.
  unfold readProgram. commute. apply commutes_hexDump.
Qed.

End Commuting.

Lemma keeps_foundSig {A : Type} (m : M state A) (s : state) :
  commutesWith (set_foundSig (foundSig s)) m ->
  foundSig (final (m s)) = foundSig s.
Proof.
  intros Hm.
  assert (set_foundSig (foundSig s) s = s) as Hs by (destruct s; reflexivity).
  specialize (Hm s). rewrite Hs in Hm. rewrite Hm at 1. reflexivity.
Qed.

(** With no signature found, what follows getSignature is the fuses and the
    first 256 bytes of flash, nothing else. *)
Lemma report_unidentified (s : state) :
  foundSig s = -1 ->
  report s = (getFuseBytes ;; readProgram) s.
Proof.
  intros Hf. unfold report.
  apply outcome_eq; step;
    rewrite (keeps_foundSig getFuseBytes s
               (commutes_getFuseBytes _ (update_foundSig _))), Hf;
    reflexivity.
Qed.

Lemma signatures_sigs :
  Forall (fun entry => List.length (sig entry) = 3%nat) signatures.
Proof. repeat constructor. Qed.

Lemma signatures_roundtrip (k : nat) (entry : signatureType) :
  nth_error signatures k = Some entry ->
  firstMatch signatures 0 (sig entry) = Some (Z.of_nat k, entry).
Proof.
  intros H.
  do 31 (destruct k as [|k]; [injection H as <-; reflexivity | ]).
  destruct k; discriminate H.
Qed.

Lemma signatureBytes_length (s : state) :
  List.length (signatureBytes s) = 3%nat.
Proof. reflexivity. Qed.

Lemma firstMatch_unknown (bytes : list Z) :
  List.length bytes = 3%nat ->
  (forall entry, In entry signatures -> sig entry <> bytes) ->
  firstMatch signatures 0 bytes = None.
Proof.
  intros Hlen Hno. apply firstMatch_none. intros entry Hin.
  destruct (memcmp0 bytes (sig entry) 3) eqn:E; [ | reflexivity].
  apply memcmp0_exact in E;
    [ | exact Hlen
      | exact (proj1 (Forall_forall _ _) signatures_sigs entry Hin)].
  exfalso. apply (Hno entry Hin). symmetry. exact E.
Qed.

(** C7.  Round trip over the table: if the target answers the three
    signature reads with the signature of the entry at index [k] of
    [signatures], getSignature ends with [foundSig = k] and that entry in
    [currentSignature].  If the bytes read are the signature of no entry,
    [foundSig] stays -1 and what follows is getFuseBytes and readProgram
    only: readBootloader is not run. *)
Theorem device_identification :
  (forall (k : nat) (entry : signatureType) (s : state),
      nth_error signatures k = Some entry ->
      signatureBytes s = sig entry ->
      foundSig (final (getSignature s)) = Z.of_nat k
      /\ currentSignature (final (getSignature s)) = entry)
  /\ (forall s : state,
        (forall entry, In entry signatures -> sig entry <> signatureBytes s) ->
        foundSig (final (getSignature s)) = -1
        /\ detect s = (getSignature ;; getFuseBytes ;; readProgram) s).
Proof.
  split.
  - intros k entry s Hk Hsig.
    destruct (getSignature_final s) as (s0 & -> & _).
    destruct (scanSignatures_final (signatureBytes s) signatures 0 s0)
      as (_ & _ & Hm).
    rewrite Hsig in Hm |- *.
    rewrite (signatures_roundtrip k entry Hk) in Hm. exact Hm.
  - intros s Hno.
    assert (foundSig (final (getSignature s)) = -1) as Hf.
    { destruct (getSignature_final s) as (s0 & -> & H0).
      destruct (scanSignatures_final (signatureBytes s) signatures 0 s0)
        as (_ & _ & Hm).
      rewrite (firstMatch_unknown _ (signatureBytes_length s) Hno) in Hm.
      rewrite (proj1 Hm). exact H0. }
    split; [exact Hf | ].
    unfold detect. apply bind_congr. exact (report_unidentified _ Hf).
Qed.

(** C10.  The scan copies each entry it looks at into [currentSignature]
    before comparing: after a run of entries that do not match, the last of
    them is what [currentSignature] holds, and [foundSig] is untouched.  So
    when the signature read matches no entry of the table, getSignature ends
    with the last entry, ATmega8A, in [currentSignature], and [foundSig = -1]
    alone tells that nothing was found.  With [foundSig = -1], what setup runs
    after getSignature never looks at [currentSignature]: putting any other
    value there changes neither what is printed nor what is sent, and the
    value is still there at the end. *)
Theorem unrecognized_leaves_last_entry :
  (forall (tbl : list signatureType) (j : Z) (bytes : list Z) (s : state),
      (forall entry, In entry tbl -> memcmp0 bytes (sig entry) 3 = false) ->
      currentSignature (final (scanSignatures tbl j bytes s))
      = last tbl (currentSignature s)
      /\ foundSig (final (scanSignatures tbl j bytes s)) = foundSig s)
  /\ (forall s : state,
        (forall entry, In entry signatures -> sig entry <> signatureBytes s) ->
        currentSignature (final (getSignature s)) = ATmega8A
        /\ last signatures (currentSignature s) = ATmega8A
        /\ foundSig (final (getSignature s)) = -1)
  /\ (forall (s : state) (c : signatureType),
        foundSig s = -1 ->
        report (set_currentSignature c s)
        = mkOutcome (value (report s))
            (set_currentSignature c (final (report s)))
            (emitted (report s))).
Proof.
  split; [ | split].
  - intros tbl j bytes s Hno.
    destruct (scanSignatures_final bytes tbl j s) as (_ & _ & Hm).
    rewrite (firstMatch_none bytes tbl j Hno) in Hm.
    destruct Hm as [Hf Hc]. auto.
  - intros s Hno.
    destruct (getSignature_final s) as (s0 & -> & H0).
    destruct (scanSignatures_final (signatureBytes s) signatures 0 s0)
      as (_ & _ & Hm).
    rewrite (firstMatch_unknown _ (signatureBytes_length s) Hno) in Hm.
    destruct Hm as [Hf Hc]. rewrite Hf, Hc.
    split; [reflexivity | ]. split; [reflexivity | exact H0].
  - intros s c Hf.
    rewrite (report_unidentified s Hf).
    rewrite (report_unidentified (set_currentSignature c s) Hf).
    apply commutes_bind.
    + apply commutes_getFuseBytes, update_currentSignature.
    + intros _. apply commutes_readProgram, update_currentSignature.
Qed.

(** *** The entries of the table *)

Lemma signatures_wellFormed : Forall wellFormed signatures.
Proof.
  apply Forall_forall. intros entry Hin. cbn in Hin.
  repeat (destruct Hin as [<- | Hin];
          [unfold wellFormed; cbn; repeat split; try lia; auto 6 | ]).
  contradiction.
Qed.

(** The largest bootloader an entry allows lies inside its flash, and its
    length fits an [unsigned int]. *)
Lemma signatures_fit :
  Forall (fun cs => 8 * baseBootSize cs <= flashSize cs
                    /\ 8 * baseBootSize cs < 2 ^ 16) signatures.
Proof.
  apply Forall_forall. intros entry Hin. cbn in Hin.
  repeat (destruct Hin as [<- | Hin]; [cbn; lia | ]).
  contradiction.
Qed.

Lemma firstMatch_ATmega328P :
  firstMatch signatures 0 [0x1E; 0x95; 0x0F]
  = Some (9, mkSig [0x1E; 0x95; 0x0F] "ATmega328P" (32 * kb) 512 128 highFuse 0).
Proof. reflexivity. Qed.

(** C9.  When the signature read is 1E 95 0F, getSignature leaves the entry
    named "ATmega328P" in [currentSignature]: flash size 32768, bootloader base
    size 512, page size 128, bootloader size in the high fuse.  For such an
    entry and a high fuse that reads 0xDE, readBootloader works on the region
    of 512 bytes starting at 32256; 0xDE has bit 0 clear (bootloader in use)
    and size bits 11 (multiplier 1). *)
Theorem atmega328p_scenario :
  (forall s : state,
      signatureBytes s = [0x1E; 0x95; 0x0F] ->
      let cs := currentSignature (final (getSignature s)) in
      desc cs = "ATmega328P"%string
      /\ flashSize cs = 32768
      /\ baseBootSize cs = 512
      /\ pageSize cs = 128
      /\ fuseWithBootloaderSize cs = highFuse)
  /\ (forall (s : state) (w1 w2 w3 : Z),
        flashSize (currentSignature s) = 32768 ->
        baseBootSize (currentSignature s) = 512 ->
        fuseWithBootloaderSize (currentSignature s) = highFuse ->
        nth_error (emitted (locateBootloader s)) 1
        = Some (Isp readHighFuseByte readHighFuseByteArg2 0 0 w1 w2 w3 0xDE) ->
        value (locateBootloader s) = Some (32256, 512))
  /\ bootloaderInUse 0xDE = true
  /\ bootMultiplier 0xDE = 1.
Proof.
  split; [ | split; [ | split; reflexivity]].
  - intros s Hsig cs.
    unfold cs.
    destruct (getSignature_final s) as (s0 & -> & _).
    destruct (scanSignatures_final (signatureBytes s) signatures 0 s0)
      as (_ & _ & Hm).
    rewrite Hsig in Hm |- *. rewrite firstMatch_ATmega328P in Hm.
    destruct Hm as [_ ->]. repeat split.
  - intros s w1 w2 w3 Hflash Hbase Hsel Hread.
    pose proof (locateBootloader_cases s) as C. cbn zeta in C.
    rewrite Hflash, Hbase, Hsel in C. cbn [Z.eqb hasBootFuse] in C.
    destruct C as (t & h1 & h2 & h3 & hFuse & C).
    change (hasBootFuse highFuse) with true in C. cbn iota in C.
    destruct C as (t' & x1 & x2 & x3 & whichFuse & C).
    rewrite C in Hread |- *. cbn [emitted nth_error value] in Hread |- *.
    injection Hread as _ _ _ ->. reflexivity.
Qed.

(** The sum that readBootloader prints and looks up has 16 bytes. *)
Lemma digestBootloader_sum_length (addr len : Z) (s : state) :
  List.length (fst (value (digestBootloader addr len s))) = 16%nat.
Proof. unfold digestBootloader. step. apply md5_finish_length. Qed.

End Proofs.

(** ** The theorems at work on the targets *)

(** C1 as first stated does not hold: the reads over 0x0000-0xFFFF from the
    power-on state do not send exactly one load-extended-address
    instruction. *)
Lemma first_64K_one_load_fails :
  loadCount (emitted (readAll (ascending 0x0000 0x10000) nothing_connected))
  <> 1%nat.
Proof.
  destruct (first_64K_no_load (tr := unconnected) nothing_connected eq_refl) as [Hc _].
  rewrite Hc. discriminate.
Qed.

Lemma entry_timeout_witness :
  (51 <= 51)%nat
  /\ (forall k, (k <= 50)%nat ->
        value (@enterAttempt unconnected uno
                 (@afterAttempts unconnected uno k nothing_connected))
        <> programAcknowledge)
  /\ value (@startProgramming unconnected uno 51 nothing_connected) = Some false
  /\ value (@setup unconnected uno rfc1321 51 nothing_connected) = Some tt.
Proof.
  assert (forall k, (k <= 50)%nat ->
        value (@enterAttempt unconnected uno
                 (@afterAttempts unconnected uno k nothing_connected))
        <> programAcknowledge) as Hnever.
  { intros k _. cbn. discriminate. }
  split; [lia | ]. split; [exact Hnever | ].
  destruct (entry_timeout (tr := unconnected) (bd := uno) (md := rfc1321)
              51 nothing_connected
              (le_n 51) Hnever) as (Hv & _ & Hs & _).
  split; [exact Hv | exact Hs].
Defined.

Lemma bootloader_region_witness :
  wellFormed (currentSignature identified_328p)
  /\ (value (locateBootloader identified_328p) = None
      <-> baseBootSize (currentSignature identified_328p) = 0
          \/ fuseWithBootloaderSize (currentSignature identified_328p) = NO_FUSE)
  /\ value (locateBootloader identified_328p) = Some (32256, 512)
  /\ 32256 + 512 = flashSize (currentSignature identified_328p).
Proof.
  assert (wellFormed (currentSignature identified_328p)) as Hwf.
  { vm_compute. repeat split; try discriminate; auto. }
  assert (value (locateBootloader identified_328p) = Some (32256, 512)) as Hv.
  { vm_compute. reflexivity. }
  destruct (bootloader_region identified_328p Hwf) as [Hnone Hsome].
  split; [exact Hwf | ]. split; [exact Hnone | ]. split; [exact Hv | ].
  destruct (Hsome 32256 512 Hv) as (w1 & w2 & w3 & whichFuse & _ & _ & _ & _ & Hexact).
  destruct Hexact as (_ & _ & Hsum);
    [vm_compute; discriminate | vm_compute; reflexivity | exact Hsum].
Defined.

Lemma digest_pass_witness :
  0 <= 32256 /\ 0 <= 512 /\ 32256 + 512 <= 2 ^ 32
  /\ value (@digestBootloader avr_target rfc1321 32256 512 identified_328p)
     = ([0xDE; 0x03; 0xFE; 0x65; 0xA6; 0x76; 0x5C; 0xAA;
         0x8C; 0x91; 0x34; 0x3A; 0xCC; 0x62; 0xCF; 0xFC], true).
Proof.
  split; [lia | ]. split; [lia | ]. split; [lia | ].
  destruct (digest_pass (tr := avr_target) (md := rfc1321)
              32256 512 identified_328p
              ltac:(lia) ltac:(lia) ltac:(lia)) as (_ & _ & _ & _ & Hall).
  rewrite Hall.
  - vm_compute. reflexivity.
  - apply forallb_isErased. vm_compute. reflexivity.
Defined.

Lemma bootloader_identification_witness :
  let dbEntry :=
    mkDb [0xFB; 0xF4; 0x9B; 0x7B; 0x59; 0x73; 0x7F; 0x65;
          0xE8; 0xD0; 0xF8; 0xA5; 0x08; 0x12; 0xE7; 0x9F]
         "optiboot_atmega328" in
  In dbEntry deviceDatabase
  /\ List.length (md5sum dbEntry) = 16%nat
  /\ matchesSum (md5sum dbEntry) dbEntry = true.
Proof.
  intros dbEntry.
  assert (In dbEntry deviceDatabase) as Hin.
  { do 20 right. left. reflexivity. }
  split; [exact Hin | ]. split; [reflexivity | ].
  apply (proj2 (proj2 (bootloader_identification (tr := avr_target)
                         (md5sum dbEntry) false identified_328p))
           dbEntry Hin eq_refl).
  reflexivity.
Defined.

Lemma device_identification_witness :
  let entry := mkSig [0x1E; 0x95; 0x0F] "ATmega328P" (32 * kb) 512 128 highFuse 0 in
  nth_error signatures 9 = Some entry
  /\ signatureBytes uno_328p = sig entry
  /\ foundSig (final (getSignature uno_328p)) = 9
  /\ currentSignature (final (getSignature uno_328p)) = entry.
Proof.
  intros entry.
  split; [reflexivity | ]. split; [reflexivity | ].
  exact (proj1 (device_identification (tr := avr_target) (md := rfc1321))
           9%nat entry uno_328p eq_refl eq_refl).
Defined.

Lemma fuse_flags_witness :
  value (locateBootloader identified_328p) = Some (32256, 512)
  /\ exists h1 h2 h3 hFuse c1 c2 w1 w2 w3 whichFuse,
       firstn 11 (emitted (locateBootloader identified_328p))
       = [Isp readHighFuseByte readHighFuseByteArg2 0 0 h1 h2 h3 hFuse;
          Isp c1 c2 0 0 w1 w2 w3 whichFuse;
          SerialPrint "Bootloader in use: " false;
          SerialPrint (yesNo (negb (Z.testbit whichFuse 0))) false;
          SerialPrint "" true;
          SerialPrint "EEPROM preserved through erase: " false;
          SerialPrint (yesNo (negb (Z.testbit hFuse 3))) false;
          SerialPrint "" true;
          SerialPrint "Watchdog timer always on: " false;
          SerialPrint (yesNo (negb (Z.testbit hFuse 4))) false;
          SerialPrint "" true]
       /\ (c1, c2)
          = fuseCommand (fuseWithBootloaderSize (currentSignature identified_328p)).
Proof.
  assert (value (locateBootloader identified_328p) = Some (32256, 512)) as Hv.
  { vm_compute. reflexivity. }
  split; [exact Hv | ].
  exact (proj2 (fuse_flags (tr := avr_target)) identified_328p (32256, 512) Hv).
Defined.

Lemma atmega328p_scenario_witness :
  signatureBytes uno_328p = [0x1E; 0x95; 0x0F]
  /\ desc (currentSignature (final (getSignature uno_328p))) = "ATmega328P"%string
  /\ nth_error (emitted (locateBootloader identified_328p)) 1
     = Some (Isp readHighFuseByte readHighFuseByteArg2 0 0 0 0x58 0x08 0xDE)
  /\ value (locateBootloader identified_328p) = Some (32256, 512).
Proof.
  destruct (atmega328p_scenario (tr := avr_target)) as (Hid & Hloc & _).
  split; [reflexivity | ].
  split; [exact (proj1 (Hid uno_328p eq_refl)) | ].
  assert (nth_error (emitted (locateBootloader identified_328p)) 1
          = Some (Isp readHighFuseByte readHighFuseByteArg2 0 0 0 0x58 0x08 0xDE))
    as Hread by (vm_compute; reflexivity).
  split; [exact Hread | ].
  exact (Hloc identified_328p 0 0x58 0x08 eq_refl eq_refl eq_refl Hread).
Defined.

Lemma unrecognized_leaves_last_entry_witness :
  (forall entry, In entry signatures -> sig entry <> signatureBytes stranger)
  /\ currentSignature (final (getSignature stranger)) = ATmega8A
  /\ foundSig (final (getSignature stranger)) = -1
  /\ @report avr_target rfc1321
       (set_currentSignature (currentSignature uno_328p)
          (final (getSignature stranger)))
     = mkOutcome
         (value (@report avr_target rfc1321 (final (getSignature stranger))))
         (set_currentSignature (currentSignature uno_328p)
            (final (@report avr_target rfc1321 (final (getSignature stranger)))))
         (emitted (@report avr_target rfc1321 (final (getSignature stranger)))).
Proof.
  assert (forall entry, In entry signatures ->
                        sig entry <> signatureBytes stranger) as Hno.
  { assert (signatureBytes stranger = [0x1E; 0x00; 0x00]) as ->
      by (vm_compute; reflexivity).
    intros entry Hin. cbn in Hin.
    repeat (destruct Hin as [<- | Hin]; [discriminate | ]).
    contradiction. }
  destruct (unrecognized_leaves_last_entry (tr := avr_target) (md := rfc1321))
    as (_ & Hlast & Hframe).
  destruct (Hlast stranger Hno) as (Hc & _ & Hf).
  split; [exact Hno | ]. split; [exact Hc | ]. split; [exact Hf | ].
  exact (Hframe (final (getSignature stranger))
           (currentSignature uno_328p) Hf).
Defined.

(** ** Runs *)

(** The MD5 test suite of RFC 1321, A.5: the empty message and "abc". *)
Example md5_empty :
  MD5.md5 []
  = [0xd4; 0x1d; 0x8c; 0xd9; 0x8f; 0x00; 0xb2; 0x04;
     0xe9; 0x80; 0x09; 0x98; 0xec; 0xf8; 0x42; 0x7e].
Proof. vm_compute. reflexivity. Qed.

Example md5_abc :
  MD5.md5 [0x61; 0x62; 0x63]
  = [0x90; 0x01; 0x50; 0x98; 0x3c; 0xd2; 0x4f; 0xb0;
     0xd6; 0x96; 0x3f; 0x7d; 0x28; 0xe1; 0x7f; 0x72].
Proof. vm_compute. reflexivity. Qed.

(** An Uno whose flash is erased: the sketch gets into programming mode at
    the first attempt, finds the ATmega328P, and reports that there is no
    bootloader. *)
Example uno_erased_run :
  let r := @setup avr_target uno rfc1321 51 uno_328p in
  value r = Some tt
  /\ foundSig (final r) = 9
  /\ List.length (filter isEnable (emitted r)) = 1%nat
  /\ In (SerialPrint "Processor = " false) (emitted r)
  /\ In (SerialPrint "ATmega328P" true) (emitted r)
  /\ In (SerialNum 512 DEC false) (emitted r)
  /\ In (SerialNum 32256 HEX true) (emitted r)
  /\ In (SerialPrint "No bootloader (all 0xFF)" true) (emitted r).
Proof.
  set (r := @setup avr_target uno rfc1321 51 uno_328p).
  assert (forall e, existsb (fun e' => if event_eq_dec e e' then true else false)
                      (emitted r) = true -> In e (emitted r)) as Hin.
  { intros e H. apply existsb_exists in H. destruct H as (e' & He & Heq).
    destruct (event_eq_dec e e') as [->|]; [exact He | discriminate]. }
  repeat split; try (vm_compute; reflexivity);
    apply Hin; vm_compute; reflexivity.
Qed.

(** Nothing on the bus: 51 attempts, then the failure message. *)
Example unconnected_run :
  let r := @setup unconnected uno rfc1321 51 nothing_connected in
  value r = Some tt
  /\ List.length (filter isEnable (emitted r)) = 51%nat
  /\ List.length (filter isIsp (emitted r)) = 51%nat
  /\ last (emitted r) (SerialBegin 0)
     = SerialPrint "Failed to enter programming mode. Double-check wiring!" true.
Proof. vm_compute. repeat split; reflexivity. Qed.

(** * Proofs for the rest of the sketch *)


Section MoreProofs.
Context {tr : Transport} {bd : Board} {md : Md5}.

(** *** showHex *)

Lemma bytes_all (P : Z -> bool) :
  forallb P (map Z.of_nat (seq 0 256)) = true ->
  forall b, 0 <= b < 256 -> P b = true.
Proof.
  intros H b Hb. rewrite forallb_forall in H. apply H.
  apply in_map_iff. exists (Z.to_nat b). split; [lia | ].
  apply in_seq. lia.
Qed.

(** X1.  What showHex prints for a byte reads back as that byte: two
    upper-case hexadecimal digits, the high one first and a leading zero
    below 16, then one space. *)
Theorem hexText_roundtrip (b : Z) :
  0 <= b < 256 -> readHex (hexText b) = Some b.
Proof.
  intros Hb.
  pose proof (bytes_all
                (fun b => match readHex (hexText b) with
                          | Some v => v =? b
                          | None => false
                          end)
                ltac:(vm_compute; reflexivity) b Hb) as H.
  cbv beta in H. destruct (readHex (hexText b)) as [v|]; [ | discriminate].
  apply Z.eqb_eq in H. rewrite H. reflexivity.
Qed.

(** *** readFlash *)

Lemma decodeAddress_readInstruction (a : Z) :
  0 <= a < 2 ^ 24 ->
  decodeAddress (addressMSB a) (readInstruction a) = Some a.
Proof.
  intros Ha. unfold decodeAddress, readInstruction, addressMSB, highByte,
    lowByte, wrap8.
  change 0xFF with (Z.ones 8). rewrite !Z.land_ones by lia.
  rewrite !Z.shiftr_div_pow2 by lia.
  change (2 ^ 1) with 2. change (2 ^ 8) with 256. change (2 ^ 16) with 65536.
  change (2 ^ 24) with 16777216 in Ha.
  f_equal.
  assert ((if Z.lor readProgramMemory (if Z.odd a then 8 else 0)
              =? Z.lor readProgramMemory 8 then 1 else 0) = a mod 2) as ->.
  { rewrite Zmod_odd. destruct (Z.odd a); reflexivity. }
  Z.div_mod_to_equations. lia.
Qed.

(** X2.  For an address below 2^24, readFlash sends exactly one flash read
    instruction, and the address can be recovered from it and from the
    extended address byte readFlash leaves in [lastAddressMSB]: the low bit
    is in the instruction code, the word address in bytes two and three. *)
Theorem readFlash_address_roundtrip (a : Z) (s : state) :
  0 <= a < 2 ^ 24 ->
  exists e,
    flashReads (emitted (readFlash a s)) = [e]
    /\ decodeAddress (lastAddressMSB (final (readFlash a s))) (instruction e)
       = Some a.
Proof.
  intros Ha.
  destruct (readFlash_reads a s) as (e & He & Hi & _).
  exists e. split; [exact He | ].
  rewrite Hi, readFlash_lastAddressMSB.
  apply decodeAddress_readInstruction. exact Ha.
Qed.

(** X3.  Over any sequence of addresses, from any state, the number of
    load-extended-address instructions readFlash sends is the number of times
    the most significant byte changes along the sequence, counted from
    [lastAddressMSB]; [lastAddressMSB] ends as the byte of the last address,
    and there is never more than one load for each read. *)
Theorem readAll_loads (addrs : list Z) : forall s : state,
  loadCount (emitted (readAll addrs s))
  = changes (lastAddressMSB s) (map addressMSB addrs)
  /\ lastAddressMSB (final (readAll addrs s))
     = last (map addressMSB addrs) (lastAddressMSB s)
  /\ (loadCount (emitted (readAll addrs s)) <= List.length addrs)%nat.
Proof.
  induction addrs as [|a rest IH]; intros s.
  - cbn. auto.
  - destruct (IH (final (readFlash a s))) as (Hc & Hl & Hb).
    rewrite readFlash_lastAddressMSB in Hc, Hl.
    cbn [readAll map changes List.length]. step.
    rewrite !loadCount_app, Hc, readFlash_loadCount.
    change (loadCount []) with 0%nat. rewrite Nat.add_0_r.
    split; [ | split].
    + destruct (addressMSB a =? lastAddressMSB s); reflexivity.
    + rewrite Hl. destruct (map addressMSB rest) as [|m ms]; [reflexivity | ].
      change (last (addressMSB a :: m :: ms) (lastAddressMSB s))
        with (last (m :: ms) (lastAddressMSB s)).
      apply last_cons_default.
    + rewrite Hc in Hb.
      destruct (addressMSB a =? lastAddressMSB s); lia.
Qed.

(** *** startProgramming *)

Lemma afterAttempts_succ (k : nat) : forall s : state,
  afterAttempts (S k) s = final (enterAttempt (afterAttempts k s)).
Proof.
  induction k as [|k IH]; intros s; [reflexivity | ].
  change (afterAttempts (S (S k)) s)
    with (afterAttempts (S k) (final (enterAttempt s))).
  rewrite IH. reflexivity.
Qed.

Lemma enterLoop_ack (k : nat) : forall (fuel : nat) (timeout : Z) (s : state),
  0 <= timeout -> timeout + Z.of_nat k <= 50 ->
  (k < fuel)%nat ->
  (forall j, (j < k)%nat ->
     value (enterAttempt (afterAttempts j s)) <> programAcknowledge) ->
  value (enterAttempt (afterAttempts k s)) = programAcknowledge ->
  let r := enterLoop fuel timeout s in
  value r = Some true
  /\ final r = afterAttempts (S k) s
  /\ List.length (filter isEnable (emitted r)) = S k
  /\ List.length (filter isDot (emitted r)) = k
  /\ ispOnlyEnable (emitted r).
Proof.
  induction k as [|k IH]; intros fuel timeout s H0 Ht Hfuel Hbefore Hack r;
    subst r; (destruct fuel as [|fuel]; [lia | ]);
    cbn [enterLoop]; step;
    destruct (enterAttempt_outcome s) as (t & r1 & r2 & c & r4 & E).
  - cbn [afterAttempts] in Hack |- *. rewrite E in *.
    cbn [value final emitted] in *. subst c.
    change (programAcknowledge =? programAcknowledge) with true. step.
    repeat split.
    repeat apply ispOnlyEnable_app; repeat constructor; cbn; intros; congruence.
  - pose proof (Hbefore 0%nat ltac:(lia)) as Hfirst.
    cbn [afterAttempts] in Hfirst. rewrite E in *.
    cbn [value final emitted] in *.
    apply Z.eqb_neq in Hfirst. rewrite Hfirst. step.
    replace (timeout >=? ENTER_PROGRAMMING_ATTEMPTS) with false
      by (symmetry; rewrite Z.geb_leb; apply Z.leb_gt;
          unfold ENTER_PROGRAMMING_ATTEMPTS; lia).
    replace (wrap16 (timeout + 1)) with (timeout + 1)
      by (unfold wrap16; rewrite Z.mod_small; lia).
    destruct (IH fuel (timeout + 1) (set_chip t s))
      as (Hv & Hf & Hc & Hd & Hi); [lia | lia | lia | | | ].
    { intros j Hj. specialize (Hbefore (S j) ltac:(lia)).
      cbn [afterAttempts] in Hbefore. rewrite E in Hbefore. exact Hbefore. }
    { cbn [afterAttempts] in Hack. rewrite E in Hack. exact Hack. }
    split; [exact Hv | ]. split.
    { rewrite Hf. cbn [afterAttempts]. rewrite E. reflexivity. }
    split; [rewrite !filter_app, !length_app, Hc; reflexivity | ].
    split; [rewrite !filter_app, !length_app, Hd; reflexivity | ].
    repeat apply ispOnlyEnable_app; try exact Hi;
      repeat constructor; cbn; intros; congruence.
Qed.

(** X4.  If the target acknowledges the enable instruction at attempt [k + 1]
    and at none before, with [k] at most 50, startProgramming returns true
    after sending the instruction [k + 1] times and printing [k] dots, and
    ends with "Entered programming mode OK."; setup then goes on with the
    signature, the fuses and the dumps from the state the loop left. *)
Theorem startProgramming_enters (k fuel : nat) (s : state) :
  (k <= 50)%nat -> (51 <= fuel)%nat ->
  (forall j, (j < k)%nat ->
     value (enterAttempt (afterAttempts j s)) <> programAcknowledge) ->
  value (enterAttempt (afterAttempts k s)) = programAcknowledge ->
  let r := startProgramming fuel s in
  value r = Some true
  /\ final r = afterAttempts (S k) s
  /\ List.length (filter isEnable (emitted r)) = S k
  /\ List.length (filter isDot (emitted r)) = k
  /\ (exists evs, emitted r = evs ++ enteredMessage)
  /\ value (setup fuel s) = Some tt
  /\ final (setup fuel s) = final (detect (afterAttempts (S k) s))
  /\ (exists evs,
        emitted (setup fuel s)
        = evs ++ enteredMessage ++ emitted (detect (afterAttempts (S k) s))).
Proof.
  intros Hk Hfuel Hbefore Hack r.
  destruct (enterLoop_ack k fuel 0 s ltac:(lia) ltac:(lia) ltac:(lia)
              Hbefore Hack) as (Hv & Hf & Hc & Hd & _).
  assert (value r = Some true /\ final r = afterAttempts (S k) s) as [Hrv Hrf].
  { unfold r, startProgramming. step. rewrite Hv. step. rewrite Hf. auto. }
  split; [exact Hrv | ]. split; [exact Hrf | ].
  split; [ | split; [ | split; [ | split; [ | split]]]].
  - unfold r, startProgramming. step. rewrite Hv. step.
    rewrite !filter_app, !length_app, Hc. cbn. lia.
  - unfold r, startProgramming. step. rewrite Hv. step.
    rewrite !filter_app, !length_app, Hd. cbn. lia.
  - unfold r, startProgramming. step. rewrite Hv. step.
    exists ([SerialPrint "Attempting to enter programming mode ..." false;
             DigitalWrite RESET true; SpiBegin; SpiClockDiv64;
             PinModeOutput RESET; PinModeOutput SCK]
            ++ emitted (enterLoop fuel 0 s)).
    rewrite <- app_assoc. reflexivity.
  - unfold setup. step. fold r. rewrite Hrv. reflexivity.
  - unfold setup. step. fold r. rewrite Hrv. step. rewrite Hrf. reflexivity.
  - unfold setup. step. fold r. rewrite Hrv. step. rewrite Hrf.
    unfold r, startProgramming. step. rewrite Hv. step.
    exists ([SerialBegin 115200; SerialPrint "" true;
             SerialPrint "Atmega chip detector." true;
             SerialPrint "Written by Nick Gammon." true;
             SerialPrint "Version " false; SerialPrint "1.14" true;
             SerialPrint compiledOn true; PinModeOutput CLOCKOUT;
             Timer1ClockOut;
             SerialPrint "Attempting to enter programming mode ..." false;
             DigitalWrite RESET true; SpiBegin; SpiClockDiv64;
             PinModeOutput RESET; PinModeOutput SCK]
            ++ emitted (enterLoop fuel 0 s)).
    unfold enteredMessage. rewrite <- !app_assoc. cbn [app].
    rewrite ?app_nil_r. reflexivity.
Qed.

Lemma enterLoop_unfold (fuel : nat) (timeout : Z) (s : state) :
  enterLoop (S fuel) timeout s
  = let a := enterAttempt s in
    if value a =? programAcknowledge then
      mkOutcome (Some true) (final a) (emitted a ++ [])
    else if timeout >=? ENTER_PROGRAMMING_ATTEMPTS then
      mkOutcome (Some false) (final a)
        (emitted a ++ [SerialPrint "." false] ++ failureMessage)
    else
      let r := enterLoop fuel (wrap16 (timeout + 1)) (final a) in
      mkOutcome (value r) (final r)
        (emitted a ++ [SerialPrint "." false] ++ emitted r).
Proof.
  cbn zeta. cbn [enterLoop].
  destruct (value (enterAttempt s) =? programAcknowledge) eqn:Hc.
  - apply outcome_eq; step; rewrite Hc; reflexivity.
  - destruct (timeout >=? ENTER_PROGRAMMING_ATTEMPTS) eqn:Hlast;
      apply outcome_eq; step; rewrite Hc; step; reflexivity.
Qed.

Lemma enterLoop_fuel (fuel : nat) :
  forall (fuel' : nat) (timeout : Z) (s : state),
    0 <= timeout <= 50 ->
    (Z.to_nat (50 - timeout) < fuel)%nat ->
    (Z.to_nat (50 - timeout) < fuel')%nat ->
    enterLoop fuel timeout s = enterLoop fuel' timeout s
    /\ value (enterLoop fuel timeout s) <> None
    /\ (1 <= List.length (filter isEnable (emitted (enterLoop fuel timeout s)))
        <= S (Z.to_nat (50 - timeout)))%nat.
Proof.
  induction fuel as [|fuel IH]; intros fuel' timeout s Ht Hf Hf'; [lia | ].
  destruct fuel' as [|fuel']; [lia | ].
  rewrite !enterLoop_unfold. cbn zeta.
  destruct (enterAttempt_outcome s) as (t & r1 & r2 & c & r4 & E).
  rewrite E. cbn [value final emitted].
  assert (List.length
            (filter isEnable
               [Delay 100; DigitalWrite SCK false; DigitalWrite RESET true;
                Delay 1; DigitalWrite RESET false; Delay 25;
                Isp progamEnable programAcknowledge 0 0 r1 r2 c r4]) = 1%nat)
    as Hone by reflexivity.
  destruct (c =? programAcknowledge).
  { split; [reflexivity | ]. split; [discriminate | ].
    cbn [emitted]. rewrite filter_app, length_app, Hone. cbn. lia. }
  destruct (timeout >=? ENTER_PROGRAMMING_ATTEMPTS) eqn:Hlast.
  { split; [reflexivity | ]. split; [discriminate | ].
    cbn [emitted]. rewrite filter_app, length_app, Hone. cbn. lia. }
  rewrite Z.geb_leb in Hlast. apply Z.leb_gt in Hlast.
  unfold ENTER_PROGRAMMING_ATTEMPTS in Hlast.
  replace (wrap16 (timeout + 1)) with (timeout + 1)
    by (unfold wrap16; rewrite Z.mod_small; lia).
  destruct (IH fuel' (timeout + 1) (set_chip t s))
    as (Heq & Hv & Hn); [lia | lia | lia | ].
  rewrite <- Heq. split; [reflexivity | ]. split; [exact Hv | ].
  cbn [emitted]. rewrite !filter_app, !length_app, Hone.
  cbn [filter isEnable List.length Nat.add].
  replace (Z.to_nat (50 - timeout))
    with (S (Z.to_nat (50 - (timeout + 1)))) by lia.
  lia.
Qed.

(** X5.  The loop of startProgramming ends whatever the target answers:
    with fuel 51 or more the result is the one for 51, it is a return value
    (true or false), and between 1 and 51 enable instructions were sent; so
    setup, too, does not depend on fuel beyond 51. *)
Theorem startProgramming_bounded (fuel : nat) (s : state) :
  (51 <= fuel)%nat ->
  startProgramming fuel s = startProgramming 51 s
  /\ (exists ok : bool, value (startProgramming fuel s) = Some ok)
  /\ (1 <= List.length (filter isEnable (emitted (startProgramming fuel s)))
      <= 51)%nat
  /\ setup fuel s = setup 51 s.
Proof.
  intros Hfuel.
  destruct (enterLoop_fuel fuel 51 0 s ltac:(lia) ltac:(simpl; lia)
              ltac:(simpl; lia)) as (Heq & Hv & Hn).
  assert (startProgramming fuel s = startProgramming 51 s) as Hsame.
  { unfold startProgramming. do 6 (apply bind_congr). cbn zeta.
    unfold bind. cbn [value final emitted print emit].
    rewrite Heq. reflexivity. }
  split; [exact Hsame | ]. split; [ | split].
  - apply startProgramming_total. exact Hfuel.
  - change (Z.to_nat (50 - 0)) with 50%nat in Hn.
    unfold startProgramming. step.
    destruct (value (enterLoop fuel 0 s)) as [[|]|]; step;
      rewrite !filter_app, !length_app;
      cbn [filter isEnable List.length Nat.add]; lia.
  - unfold setup. do 9 (apply bind_congr).
    unfold bind. cbn [value final emitted print println newline emit].
    rewrite Hsame. reflexivity.
Qed.


(** *** Walking through the sketch

    A property of computations that holds of the steps the sketch is made of
    and passes through sequencing holds of every function of it. *)

Section Everywhere.

Variable Q : forall A : Type, M state A -> Prop.
Hypothesis Q_ret : forall (A : Type) (a : A), Q A (ret a).
Hypothesis Q_bind : forall (A B : Type) (m : M state A) (k : A -> M state B),
  Q A m -> (forall a, Q B (k a)) -> Q B (bind m k).
Hypothesis Q_emit : forall e : event, isIsp e = false -> Q unit (emit e).
Hypothesis Q_gets : forall (A : Type) (f : state -> A), Q A (gets f).
Hypothesis Q_set_foundSig : forall j : Z, Q unit (modify (set_foundSig j)).
Hypothesis Q_set_currentSignature :
  forall c : signatureType, Q unit (modify (set_currentSignature c)).
Hypothesis Q_read : forall b1 b2 b3 b4 : Z,
  isReadCommand b1 = true -> Q Z (program b1 b2 b3 b4).
Hypothesis Q_readFlash : forall addr : Z, Q Z (readFlash addr).
Hypothesis Q_enterAttempt : Q Z enterAttempt.

Ltac walk :=
  repeat match goal with
    | |- Q _ (bind _ _) => apply Q_bind; [ | intros ? ]
    | |- Q _ (when ?c _) => destruct c; cbn [when]
    | |- Q _ (ret _) => apply Q_ret
    | |- Q _ (emit _) => apply Q_emit; reflexivity
    | |- Q _ (print _) => apply Q_emit; reflexivity
    | |- Q _ (println _) => apply Q_emit; reflexivity
    | |- Q _ newline => apply Q_emit; reflexivity
    | |- Q _ (gets _) => apply Q_gets
    | |- Q _ (modify (set_foundSig _)) => apply Q_set_foundSig
    | |- Q _ (modify (set_currentSignature _)) => apply Q_set_currentSignature
    | |- Q _ (program _ _ _ _) => apply Q_read; reflexivity
    | |- Q _ (readFlash _) => apply Q_readFlash
    | |- Q _ enterAttempt => apply Q_enterAttempt
    | |- Q _ (if ?c then _ else _) => destruct c
    | |- Q _ (match ?x with _ => _ end) => destruct x
    end.

Lemma Q_printProgStr (str : string) : Q unit (printProgStr str).
Proof. induction str as [|c rest IH]; cbn [printProgStr]; walk. exact IH. Qed.

Lemma Q_showHex (b : Z) (nl : bool) : Q unit (showHex b nl).
Proof. unfold showHex. walk. Qed.

Lemma Q_showYesNo (b nl : bool) : Q unit (showYesNo b nl).
Proof. unfold showYesNo. walk. Qed.

Lemma Q_locateBootloader : Q _ locateBootloader.
Proof.
  unfold locateBootloader, readWhichFuse. walk; apply Q_showYesNo.
Qed.

Lemma Q_hexDump (n : nat) : forall i addr : Z, Q unit (hexDump n i addr).
Proof.
  induction n as [|n IH]; intros i addr; cbn [hexDump]; walk;
    solve [apply Q_showHex | apply IH].
Qed.

Lemma Q_md5Loop (n : nat) :
  forall (addr : Z) (ctx : md5_context) (allFF : bool),
    Q _ (md5Loop n addr ctx allFF).
Proof.
  induction n as [|n IH]; intros addr ctx allFF; cbn [md5Loop]; walk.
  apply IH.
Qed.

Lemma Q_searchDatabase (sum : list Z) (db : list deviceDatabaseType) :
  Q bool (searchDatabase db sum).
Proof.
  induction db as [|e rest IH]; cbn [searchDatabase]; walk;
    solve [exact IH | apply Q_printProgStr].
Qed.

Lemma Q_showBytes (n : nat) : forall (i : nat) (a : list Z),
  Q unit (showBytes n i a).
Proof.
  induction n as [|n IH]; intros i a; cbn [showBytes]; walk;
    solve [apply Q_showHex | apply IH].
Qed.

Lemma Q_identifyBootloader (sum : list Z) (allFF : bool) :
  Q unit (identifyBootloader sum allFF).
Proof.
  unfold identifyBootloader. walk;
    solve [apply Q_showBytes | apply Q_searchDatabase].
Qed.

Lemma Q_readBootloader : Q unit readBootloader.
Proof.
  unfold readBootloader, digestBootloader. walk;
    solve [apply Q_locateBootloader | apply Q_hexDump | apply Q_md5Loop
          | apply Q_identifyBootloader].
Qed.

Lemma Q_readProgram : Q unit readProgram.
Proof. unfold readProgram. walk. apply Q_hexDump. Qed.

Lemma Q_enterLoop (fuel : nat) : forall timeout : Z, Q _ (enterLoop fuel timeout).
Proof.
  induction fuel as [|fuel IH]; intros timeout; cbn [enterLoop]; walk.
  apply IH.
Qed.

Lemma Q_startProgramming (fuel : nat) : Q _ (startProgramming fuel).
Proof. unfold startProgramming. walk; apply Q_enterLoop. Qed.

Lemma Q_scanSignatures (sig_ : list Z) (tbl : list signatureType) :
  forall j : Z, Q unit (scanSignatures tbl j sig_).
Proof.
  induction tbl as [|entry rest IH]; intros j; cbn [scanSignatures]; walk.
  apply IH.
Qed.

Lemma Q_getSignature : Q unit getSignature.
Proof.
  unfold getSignature. walk; solve [apply Q_showHex | apply Q_scanSignatures].
Qed.

Lemma Q_getFuseBytes : Q unit getFuseBytes.
Proof. unfold getFuseBytes. walk; apply Q_showHex. Qed.

Lemma Q_detect : Q unit detect.
Proof.
  unfold detect, report. walk;
    solve [apply Q_getSignature | apply Q_getFuseBytes | apply Q_readBootloader
          | apply Q_readProgram].
Qed.

Lemma Q_setup (fuel : nat) : Q _ (setup fuel).
Proof.
  unfold setup. walk; solve [apply Q_startProgramming | apply Q_detect].
Qed.

End Everywhere.


(** *** Nothing but reads *)

Lemma emitsOnly_bind (P : event -> bool) (A B : Type)
      (m : M state A) (k : A -> M state B) :
  emitsOnly P m -> (forall a, emitsOnly P (k a)) -> emitsOnly P (bind m k).
Proof.
  intros Hm Hk s. step. rewrite forallb_app, Hm, Hk. reflexivity.
Qed.

Lemma harmless_other (e : event) : isIsp e = false -> harmless e = true.
Proof. destruct e; cbn; congruence. Qed.

Lemma harmless_read (b1 b2 b3 b4 : Z) :
  isReadCommand b1 = true -> emitsOnly harmless (program b1 b2 b3 b4).
Proof.
  intros Hb s.
  destruct (program_outcome b1 b2 b3 b4 s) as (t & r1 & r2 & r3 & r4 & ->).
  cbn [emitted forallb harmless]. rewrite Hb.
  rewrite orb_true_r. reflexivity.
Qed.

Lemma harmless_readFlash (addr : Z) : emitsOnly harmless (readFlash addr).
Proof.
  intros s. unfold readFlash. step. rewrite !forallb_app.
  match goal with
  | |- context [program ?a ?b ?c ?d ?st] =>
      destruct (program_outcome a b c d st) as (t & r1 & r2 & r3 & r4 & ->)
  end.
  assert (forallb harmless
            (emitted
               (when (negb (addressMSB addr =? lastAddressMSB s))
                  (program loadExtendedAddressByte 0 (addressMSB addr) 0 ;;
                   modify (set_lastAddressMSB (addressMSB addr))) s)) = true)
    as ->.
  { destruct (addressMSB addr =? lastAddressMSB s); step; [reflexivity | ].
    destruct (program_outcome loadExtendedAddressByte 0 (addressMSB addr) 0 s)
      as (t' & a1 & a2 & a3 & a4 & ->).
    reflexivity. }
  destruct (negb (Z.land addr 1 =? 0)); reflexivity.
Qed.

Lemma harmless_enterAttempt : emitsOnly harmless enterAttempt.
Proof.
  intros s.
  destruct (enterAttempt_outcome s) as (t & r1 & r2 & c & r4 & ->).
  reflexivity.
Qed.

(** X6.  For every target and from every state, each instruction setup sends
    is the programming-enable instruction with its acknowledge byte, a read
    of the signature, the calibration byte, a fuse or the lock byte, a flash
    read, or a load of the extended address byte: nothing that erases or
    writes the target. *)
Theorem setup_sends_only_reads (fuel : nat) (s : state) :
  forallb harmless (emitted (setup fuel s)) = true.
Proof.
  apply (Q_setup (fun A m => emitsOnly harmless m)).
  - intros A a s'. reflexivity.
  - intros A B m k. apply emitsOnly_bind.
  - intros e He s'. cbn [emit emitted forallb].
    rewrite (harmless_other e He). reflexivity.
  - intros A f s'. reflexivity.
  - intros j s'. reflexivity.
  - intros c s'. reflexivity.
  - apply harmless_read.
  - apply harmless_readFlash.
  - apply harmless_enterAttempt.
Qed.

(** *** The extended address byte *)

Lemma lastLoaded_app (init : Z) (a b : list event) :
  lastLoaded init (a ++ b) = lastLoaded (lastLoaded init a) b.
Proof. apply fold_left_app. Qed.

Lemma coherent_bind (A B : Type) (m : M state A) (k : A -> M state B) :
  coherent m -> (forall a, coherent (k a)) -> coherent (bind m k).
Proof.
  intros Hm Hk s. step. rewrite lastLoaded_app, Hm, Hk. reflexivity.
Qed.

Lemma read_not_load (b1 : Z) :
  isReadCommand b1 = true -> (b1 =? loadExtendedAddressByte) = false.
Proof.
  unfold isReadCommand. rewrite !orb_true_iff, !Z.eqb_eq.
  intros [[[-> | ->] | ->] | ->]; reflexivity.
Qed.

Lemma coherent_read (b1 b2 b3 b4 : Z) :
  isReadCommand b1 = true -> coherent (program b1 b2 b3 b4).
Proof.
  intros Hb s.
  destruct (program_outcome b1 b2 b3 b4 s) as (t & r1 & r2 & r3 & r4 & ->).
  cbn. rewrite (read_not_load b1 Hb). reflexivity.
Qed.

Lemma coherent_readFlash (addr : Z) : coherent (readFlash addr).
Proof.
  intros s. rewrite readFlash_lastAddressMSB.
  unfold readFlash. step. rewrite !lastLoaded_app.
  match goal with
  | |- context [program ?a ?b ?c ?d ?st] =>
      destruct (program_outcome a b c d st) as (t & r1 & r2 & r3 & r4 & ->)
  end.
  cbn [emitted lastLoaded fold_left]. rewrite read_command_not_load.
  destruct (addressMSB addr =? lastAddressMSB s) eqn:E; step.
  - apply Z.eqb_eq in E. rewrite E. reflexivity.
  - destruct (program_outcome loadExtendedAddressByte 0 (addressMSB addr) 0 s)
      as (t' & a1 & a2 & a3 & a4 & ->).
    reflexivity.
Qed.

Lemma coherent_enterAttempt : coherent enterAttempt.
Proof.
  intros s.
  destruct (enterAttempt_outcome s) as (t & r1 & r2 & c & r4 & ->).
  reflexivity.
Qed.

Lemma coherent_other (e : event) : isIsp e = false -> coherent (emit e).
Proof. intros He s. destruct e; try reflexivity. discriminate He. Qed.

(** X7.  [lastAddressMSB] is a faithful record of the extended address byte
    sent to the target: at the end of setup, of readBootloader and of
    readProgram it is the third byte of the last load-extended-address
    instruction sent, or unchanged when none was sent. *)
Theorem extended_address_coherent :
  (forall (fuel : nat) (s : state),
      lastLoaded (lastAddressMSB s) (emitted (setup fuel s))
      = lastAddressMSB (final (setup fuel s)))
  /\ (forall s : state,
        lastLoaded (lastAddressMSB s) (emitted (readBootloader s))
        = lastAddressMSB (final (readBootloader s)))
  /\ (forall s : state,
        lastLoaded (lastAddressMSB s) (emitted (readProgram s))
        = lastAddressMSB (final (readProgram s))).
Proof.
  assert (forall A (m : M state A),
            (forall Q : forall A : Type, M state A -> Prop,
                (forall (A : Type) (a : A), Q A (ret a)) ->
                (forall (A B : Type) (m : M state A) (k : A -> M state B),
                    Q A m -> (forall a, Q B (k a)) -> Q B (bind m k)) ->
                (forall e : event, isIsp e = false -> Q unit (emit e)) ->
                (forall (A : Type) (f : state -> A), Q A (gets f)) ->
                (forall j : Z, Q unit (modify (set_foundSig j))) ->
                (forall c : signatureType,
                    Q unit (modify (set_currentSignature c))) ->
                (forall b1 b2 b3 b4 : Z,
                    isReadCommand b1 = true -> Q Z (program b1 b2 b3 b4)) ->
                (forall addr : Z, Q Z (readFlash addr)) ->
                Q Z enterAttempt -> Q A m) ->
            coherent m) as Hall.
  { intros A m H.
    apply (H (fun A m => coherent m)).
    - intros A' a s'. reflexivity.
    - apply coherent_bind.
    - apply coherent_other.
    - intros A' f s'. reflexivity.
    - intros j s'. reflexivity.
    - intros c s'. reflexivity.
    - apply coherent_read.
    - apply coherent_readFlash.
    - apply coherent_enterAttempt. }
  split; [ | split].
  - intros fuel. apply Hall. intros Q; intros. apply Q_setup; assumption.
  - apply Hall. intros Q; intros. apply Q_readBootloader; assumption.
  - apply Hall. intros Q; intros. apply Q_readProgram; assumption.
Qed.


(** *** hexDump *)

Lemma filter_filter_implied {A : Type} (P Q : A -> bool) (l : list A) :
  (forall a, P a = true -> Q a = true) ->
  filter P (filter Q l) = filter P l.
Proof.
  intros H. induction l as [|a l IH]; [reflexivity | ].
  cbn [filter]. destruct (Q a) eqn:Hq.
  - cbn [filter]. rewrite IH. reflexivity.
  - rewrite IH. destruct (P a) eqn:Hp; [ | reflexivity].
    rewrite (H a Hp) in Hq. discriminate.
Qed.

Lemma flashRead_isIsp (e : event) : isFlashRead e = true -> isIsp e = true.
Proof. destruct e; cbn; congruence. Qed.

Lemma loadExtended_isIsp (e : event) : isLoadExtended e = true -> isIsp e = true.
Proof. destruct e; cbn; congruence. Qed.

Lemma readFlash_isp (addr : Z) (s : state) :
  filter isIsp (emitted (readFlash addr s)) = emitted (readFlash addr s)
  /\ filter isByteText (emitted (readFlash addr s)) = []
  /\ filter isLabel (emitted (readFlash addr s)) = [].
Proof.
  unfold readFlash. step.
  match goal with
  | |- context [program ?a ?b ?c ?d ?st] =>
      destruct (program_outcome a b c d st) as (t & r1 & r2 & r3 & r4 & ->)
  end.
  destruct (addressMSB addr =? lastAddressMSB s); step.
  - repeat split.
  - destruct (program_outcome loadExtendedAddressByte 0 (addressMSB addr) 0 s)
      as (t' & a1 & a2 & a3 & a4 & ->).
    repeat split.
Qed.

Lemma readAll_isp (addrs : list Z) : forall s : state,
  filter isIsp (emitted (readAll addrs s)) = emitted (readAll addrs s).
Proof.
  induction addrs as [|a rest IH]; intros s; [reflexivity | ].
  cbn [readAll]. step. rewrite !filter_app, IH.
  rewrite (proj1 (readFlash_isp a s)). reflexivity.
Qed.

(** The dump against the plain run of reads over the same addresses. *)
Lemma hexDump_readAll (n : nat) : forall (i addr : Z) (s : state),
  0 <= i -> i + Z.of_nat n <= 32767 ->
  0 <= addr -> addr + i + Z.of_nat n <= 2 ^ 32 ->
  let r := hexDump n i addr s in
  let reads := readAll (ascending (addr + i) (Z.of_nat n)) s in
  final r = final reads
  /\ filter isIsp (emitted r) = emitted reads
  /\ filter isByteText (emitted r)
     = map (fun b => SerialPrint (hexText b) false) (value reads)
  /\ filter isLabel (emitted r)
     = map (fun a => SerialNum a HEX false)
         (filter (fun a => (a - addr) mod 16 =? 0)
                 (ascending (addr + i) (Z.of_nat n))).
Proof.
  induction n as [|n IH]; intros i addr s Hi Hn Ha Hend r reads.
  - subst r reads. cbn. auto.
  - subst r reads. rewrite ascending_succ. cbn [hexDump readAll].
    replace (wrap32 (addr + i)) with (addr + i)
      by (unfold wrap32; rewrite Z.mod_small; lia).
    replace (int16 (i + 1)) with (i + 1)
      by (unfold int16, wrap16; rewrite Z.mod_small by lia;
          destruct (i + 1 <? 2 ^ 15) eqn:E; [reflexivity | ];
          apply Z.ltb_ge in E; lia).
    rewrite Z.rem_mod_nonneg by lia.
    assert ((addr + i - addr) mod 16 = i mod 16) as Hmod by (f_equal; lia).
    destruct (readFlash_isp (addr + i) s) as (Hisp & Htxt & Hlab).
    destruct (IH (i + 1) addr (final (readFlash (addr + i) s)))
      as (Hf & He & Ht & Hl); [lia | lia | lia | lia | ].
    replace (addr + (i + 1)) with (addr + i + 1) in Hf, He, Ht, Hl by lia.
    unfold showHex.
    destruct (i mod 16 =? 0) eqn:E0; destruct (i mod 16 =? 15); step;
      rewrite !filter_app, Hisp, Htxt, Hlab, Hf, He, Ht, Hl;
      cbn [filter map isIsp isByteText isLabel app String.length hexText Nat.eqb];
      rewrite ?app_nil_r, ?Hmod, ?E0; repeat split.
Qed.


(** X9.  readProgram reads the addresses 0 to 255 in ascending order and
    prints 16 address labels.  It sends one load-extended-address instruction
    when [lastAddressMSB] was not 0 and none otherwise, and leaves
    [lastAddressMSB] at 0; so does everything setup runs once in programming
    mode, of which readProgram is the last part. *)
Theorem readProgram_reads (s : state) :
  let r := readProgram s in
  map instruction (flashReads (emitted r))
  = map readInstruction (ascending 0 256)
  /\ loadCount (emitted r) = (if lastAddressMSB s =? 0 then 0%nat else 1%nat)
  /\ lastAddressMSB (final r) = 0
  /\ List.length (filter isLabel (emitted r)) = 16%nat
  /\ lastAddressMSB (final (detect s)) = 0.
Proof.
  intros r.
  assert (forall s0 : state, lastAddressMSB (final (readProgram s0)) = 0) as Hzero.
  { intros s0.
    destruct (hexDump_readAll (Z.to_nat 256) 0 0 s0)
      as (Hf0 & _); [lia | cbn; lia | lia | cbn; lia | ].
    change (Z.of_nat (Z.to_nat 256)) with 256 in Hf0.
    change (0 + 0) with 0 in Hf0.
    unfold readProgram. step. rewrite Hf0.
    change (ascending 0 256) with (0 :: ascending 1 255).
    cbn [readAll]. step.
    destruct (readAll_same_MSB (ascending 1 255) (final (readFlash 0 s0)))
      as [_ Hl'].
    { apply Forall_forall. intros a Hin. apply ascending_In in Hin.
      rewrite readFlash_lastAddressMSB.
      rewrite (addressMSB_low a) by lia. reflexivity. }
    rewrite Hl', readFlash_lastAddressMSB. reflexivity. }
  destruct (hexDump_readAll (Z.to_nat 256) 0 0 s)
    as (Hf & He & _ & Hl); [lia | cbn; lia | lia | cbn; lia | ].
  change (Z.of_nat (Z.to_nat 256)) with 256 in Hf, He, Hl.
  change (0 + 0) with 0 in Hf, He, Hl.
  destruct (readAll_reads (ascending 0 256) s) as [Hi _].
  assert (filter isIsp (emitted r) = emitted (readAll (ascending 0 256) s)) as Hisp.
  { unfold r, readProgram. step. rewrite !filter_app, He. cbn.
    rewrite app_nil_r. reflexivity. }
  assert (final r = final (readAll (ascending 0 256) s)) as Hfin.
  { unfold r, readProgram. step. exact Hf. }
  assert (loadCount (emitted (readAll (ascending 0 256) s))
          = (if lastAddressMSB s =? 0 then 0%nat else 1%nat)
          /\ lastAddressMSB (final (readAll (ascending 0 256) s)) = 0) as [Hc Hm].
  { change (ascending 0 256) with (0 :: ascending 1 255).
    cbn [readAll]. step.
    destruct (readAll_same_MSB (ascending 1 255) (final (readFlash 0 s)))
      as [Hc' Hl'].
    { apply Forall_forall. intros a Hin. apply ascending_In in Hin.
      rewrite readFlash_lastAddressMSB.
      rewrite (addressMSB_low a) by lia. reflexivity. }
    rewrite !loadCount_app, Hc', readFlash_loadCount, Hl',
      readFlash_lastAddressMSB.
    change (addressMSB 0) with 0. rewrite (Z.eqb_sym 0).
    split; [ | reflexivity].
    destruct (lastAddressMSB s =? 0); reflexivity. }
  split; [ | split; [ | split; [ | split]]].
  - unfold flashReads.
    rewrite <- (filter_filter_implied isFlashRead isIsp) by exact flashRead_isIsp.
    rewrite Hisp. exact Hi.
  - unfold loadCount.
    rewrite <- (filter_filter_implied isLoadExtended isIsp)
      by exact loadExtended_isIsp.
    rewrite Hisp. exact Hc.
  - rewrite Hfin. exact Hm.
  - unfold r, readProgram. step. rewrite !filter_app, Hl. reflexivity.
  - unfold detect, report. step. apply Hzero.
Qed.


(** *** readBootloader as a whole *)

Lemma no_isp_no_reads (evs : list event) :
  forallb (fun e => negb (isIsp e)) evs = true ->
  flashReads evs = [] /\ loadCount evs = 0%nat /\ filter isIsp evs = [].
Proof.
  induction evs as [|e evs IH]; [cbn; auto | ].
  cbn [forallb]. rewrite andb_true_iff. intros [He Hrest].
  destruct (IH Hrest) as (Hr & Hc & Hi).
  unfold loadCount, flashReads in *. cbn [filter].
  destruct e; cbn in He |- *; try discriminate; auto.
Qed.

Lemma flashReads_of_isp (evs : list event) :
  flashReads evs = flashReads (filter isIsp evs).
Proof.
  unfold flashReads. symmetry.
  apply filter_filter_implied. exact flashRead_isIsp.
Qed.

Lemma identifyBootloader_no_isp (sum : list Z) (allFF : bool) (s : state) :
  forallb (fun e => negb (isIsp e)) (emitted (identifyBootloader sum allFF s))
  = true.
Proof.
  apply (Q_identifyBootloader
           (fun A m => emitsOnly (fun e => negb (isIsp e)) m)).
  - intros A a s'. reflexivity.
  - intros A B m k. apply emitsOnly_bind.
  - intros e He s'. cbn [emit emitted forallb]. rewrite He. reflexivity.
Qed.

Lemma digestBootloader_readAll (addr len : Z) (s : state) :
  0 <= addr -> 0 <= len -> addr + len <= 2 ^ 32 ->
  emitted (digestBootloader addr len s)
  = emitted (readAll (ascending addr len) s)
  /\ final (digestBootloader addr len s)
     = final (readAll (ascending addr len) s).
Proof.
  intros Ha Hlen Hend.
  destruct (md5Loop_readAll (Z.to_nat len) addr md5_starts true s)
    as (_ & Hf & He); [lia | lia | ].
  rewrite Z2Nat.id in Hf, He by lia.
  unfold digestBootloader. step. rewrite He, Hf, app_nil_r. auto.
Qed.

Lemma readAll_app (a b : list Z) : forall s : state,
  emitted (readAll (a ++ b) s)
  = emitted (readAll a s) ++ emitted (readAll b (final (readAll a s)))
  /\ final (readAll (a ++ b) s) = final (readAll b (final (readAll a s))).
Proof.
  induction a as [|x a IH]; intros s; [split; reflexivity | ].
  cbn [app readAll]. step.
  destruct (IH (final (readFlash x s))) as [He Hf].
  rewrite He, Hf, !app_nil_r, app_assoc. auto.
Qed.

(** X10.  When readBootloader finds a bootloader region, it reads it twice
    and nothing else from flash: the addresses [addr] to [addr + len - 1] in
    ascending order for the dump, then the same again for the MD5 sum, [2 *
    len] flash reads in all. *)
Theorem readBootloader_reads_twice (s : state) (addr len : Z) :
  value (locateBootloader s) = Some (addr, len) ->
  0 <= addr -> 0 <= len <= 32767 -> addr + len <= 2 ^ 32 ->
  let reads := flashReads (emitted (readBootloader s)) in
  map instruction reads
  = map readInstruction (ascending addr len ++ ascending addr len)
  /\ List.length reads = Z.to_nat (2 * len).
Proof.
  intros Hv Ha Hlen Hend reads.
  pose proof (locateBootloader_cases s) as C. cbn zeta in C.
  destruct (baseBootSize (currentSignature s) =? 0);
    [rewrite C in Hv; discriminate | ].
  destruct C as (t & h1 & h2 & h3 & hFuse & C).
  destruct (hasBootFuse (fuseWithBootloaderSize (currentSignature s)));
    [ | rewrite C in Hv; discriminate].
  destruct C as (t' & w1 & w2 & w3 & whichFuse & C).
  rewrite C in Hv. cbn [value] in Hv. injection Hv as Haddr Hlength.
  rewrite Haddr, Hlength in C.
  set (s0 := set_chip t' s) in *.
  destruct (hexDump_readAll (Z.to_nat len) 0 addr s0)
    as (Hf1 & He1 & _ & _); [lia | lia | lia | lia | ].
  rewrite Z2Nat.id, Z.add_0_r in Hf1, He1 by lia.
  destruct (digestBootloader_readAll addr len
              (final (hexDump (Z.to_nat len) 0 addr s0)))
    as [He2 Hf2]; [lia | lia | lia | ].
  destruct (readAll_app (ascending addr len) (ascending addr len) s0)
    as [Happ _].
  destruct (readAll_reads (ascending addr len ++ ascending addr len) s0)
    as [Hi Hans].
  assert (reads
          = flashReads (emitted (readAll (ascending addr len ++ ascending addr len)
                                   s0))) as Hr.
  { unfold reads, readBootloader. step. rewrite C. cbn [value final emitted].
    step. rewrite !flashReads_app.
    rewrite (proj1 (no_isp_no_reads _ (identifyBootloader_no_isp _ _ _))).
    rewrite He2, Hf1, Happ, flashReads_app.
    rewrite (flashReads_of_isp (emitted (hexDump (Z.to_nat len) 0 addr s0))), He1.
    cbn [flashReads filter isFlashRead bootloaderReport emitted app].
    change (readHighFuseByte =? readProgramMemory) with false.
    change (readHighFuseByte =? Z.lor readProgramMemory 8) with false.
    cbn [orb].
    assert (isFlashRead
              (Isp (fst (fuseCommand (fuseWithBootloaderSize (currentSignature s))))
                   (snd (fuseCommand (fuseWithBootloaderSize (currentSignature s))))
                   0 0 w1 w2 w3 whichFuse) = false) as Hw.
    { unfold fuseCommand.
      destruct (fuseWithBootloaderSize (currentSignature s) =? lowFuse);
        [reflexivity | ].
      destruct (fuseWithBootloaderSize (currentSignature s) =? highFuse);
        reflexivity. }
    unfold isFlashRead in Hw. rewrite Hw.
    rewrite ?app_nil_r. reflexivity. }
  split; [rewrite Hr; exact Hi | ].
  rewrite <- (length_map instruction), Hr, Hi, length_map, length_app.
  unfold ascending. rewrite length_map, length_seq. lia.
Qed.

(** X11.  When readBootloader finds no bootloader region it reads no flash,
    loads no extended address byte, sends at most one instruction (the read
    of the high fuse that comes before the switch) and leaves the globals as
    they were; when
    the entry has no bootloader size at all it sends nothing and prints "No
    bootloader support." only. *)
Theorem readBootloader_without_region (s : state) :
  value (locateBootloader s) = None ->
  let r := readBootloader s in
  flashReads (emitted r) = []
  /\ loadCount (emitted r) = 0%nat
  /\ (List.length (filter isIsp (emitted r)) <= 1)%nat
  /\ sameGlobals s (final r)
  /\ (baseBootSize (currentSignature s) = 0 ->
      r = mkOutcome tt s [SerialPrint "No bootloader support." true]).
Proof.
  intros Hv r.
  pose proof (locateBootloader_cases s) as C. cbn zeta in C.
  destruct (baseBootSize (currentSignature s) =? 0) eqn:B.
  - assert (r = mkOutcome tt s [SerialPrint "No bootloader support." true]) as ->.
    { unfold r, readBootloader.
      apply outcome_eq; step; rewrite C; reflexivity. }
    cbn. repeat split; auto.
  - apply Z.eqb_neq in B.
    destruct C as (t & h1 & h2 & h3 & hFuse & C).
    destruct (hasBootFuse (fuseWithBootloaderSize (currentSignature s))).
    { destruct C as (t' & w1 & w2 & w3 & whichFuse & C).
      rewrite C in Hv. discriminate. }
    assert (r = mkOutcome tt (set_chip t s)
                  [Isp readHighFuseByte readHighFuseByteArg2 0 0 h1 h2 h3 hFuse;
                   SerialPrint "No bootloader fuse." true]) as ->.
    { unfold r, readBootloader.
      apply outcome_eq; step; rewrite C; reflexivity. }
    cbn. repeat split; auto. intros H0. contradiction.
Qed.


(** *** getSignature *)

Lemma firstMatch_some (sig_ : list Z) (tbl : list signatureType) :
  forall (j k : Z) (entry : signatureType),
    firstMatch tbl j sig_ = Some (k, entry) ->
    j <= k < j + Z.of_nat (List.length tbl)
    /\ nth_error tbl (Z.to_nat (k - j)) = Some entry
    /\ memcmp0 sig_ (sig entry) 3 = true
    /\ (forall (i : nat) (e : signatureType),
          (i < Z.to_nat (k - j))%nat -> nth_error tbl i = Some e ->
          memcmp0 sig_ (sig e) 3 = false).
Proof.
  induction tbl as [|x rest IH]; intros j k entry H; [discriminate | ].
  cbn [firstMatch] in H.
  destruct (memcmp0 sig_ (sig x) 3) eqn:E.
  - injection H as <- <-. rewrite Z.sub_diag. cbn [List.length].
    split; [lia | ]. split; [reflexivity | ]. split; [exact E | ].
    intros i e Hi. cbn in Hi. lia.
  - destruct (IH (j + 1) k entry H) as (Hk & Hn & Hm & Hmin).
    cbn [List.length].
    replace (Z.to_nat (k - j)) with (S (Z.to_nat (k - (j + 1)))) by lia.
    split; [lia | ]. split; [exact Hn | ]. split; [exact Hm | ].
    intros [|i] e Hi He.
    + injection He as <-. exact E.
    + apply (Hmin i e); [lia | exact He].
Qed.

Lemma firstMatch_none_inv (sig_ : list Z) (tbl : list signatureType) :
  forall j : Z,
    firstMatch tbl j sig_ = None ->
    forall entry, In entry tbl -> memcmp0 sig_ (sig entry) 3 = false.
Proof.
  induction tbl as [|x rest IH]; intros j H entry Hin; [contradiction | ].
  cbn [firstMatch] in H.
  destruct (memcmp0 sig_ (sig x) 3) eqn:E; [discriminate | ].
  destruct Hin as [<- | Hin]; [exact E | exact (IH (j + 1) H entry Hin)].
Qed.

Lemma signature_compare (bytes : list Z) (entry : signatureType) :
  List.length bytes = 3%nat -> In entry signatures ->
  (memcmp0 bytes (sig entry) 3 = true <-> sig entry = bytes).
Proof.
  intros Hlen Hin.
  rewrite (memcmp0_exact bytes (sig entry) 3 Hlen
             (proj1 (Forall_forall _ _) signatures_sigs entry Hin)).
  split; congruence.
Qed.

Lemma getSignature_keeps_lastAddressMSB (s : state) :
  lastAddressMSB (final (getSignature s)) = lastAddressMSB s.
Proof.
  apply (Q_getSignature
           (fun A m => forall s, lastAddressMSB (final (m s)) = lastAddressMSB s)).
  - intros A a s'. reflexivity.
  - intros A B m k Hm Hk s'. step. rewrite Hk, Hm. reflexivity.
  - intros e _ s'. reflexivity.
  - intros A f s'. reflexivity.
  - intros j s'. reflexivity.
  - intros c s'. reflexivity.
  - intros b1 b2 b3 b4 _ s'. apply (program_globals b1 b2 b3 b4 s').
Qed.

(** X12.  getSignature never touches [lastAddressMSB] and always leaves an
    entry of [signatures] in [currentSignature].  Either [foundSig] is still
    -1 and no entry of the table has the three bytes read, or [foundSig] is
    the index of an entry of the table, that entry is in [currentSignature],
    its signature is the three bytes read, and no entry before it has
    them: the first match wins. *)
Theorem getSignature_verdict (s : state) :
  let s' := final (getSignature s) in
  lastAddressMSB s' = lastAddressMSB s
  /\ In (currentSignature s') signatures
  /\ ((foundSig s' = -1
       /\ forall entry, In entry signatures -> sig entry <> signatureBytes s)
      \/ (0 <= foundSig s' < NUMITEMS signatures
          /\ nth_error signatures (Z.to_nat (foundSig s'))
             = Some (currentSignature s')
          /\ sig (currentSignature s') = signatureBytes s
          /\ forall (i : nat) (entry : signatureType),
               (i < Z.to_nat (foundSig s'))%nat ->
               nth_error signatures i = Some entry ->
               sig entry <> signatureBytes s)).
Proof.
  intros s'. split; [apply getSignature_keeps_lastAddressMSB | ].
  unfold s'.
  destruct (getSignature_final s) as (s0 & -> & H0).
  destruct (scanSignatures_final (signatureBytes s) signatures 0 s0)
    as (_ & _ & Hm).
  pose proof (signatureBytes_length s) as Hlen.
  destruct (firstMatch signatures 0 (signatureBytes s)) as [[k entry]|] eqn:F.
  - destruct Hm as [-> ->].
    destruct (firstMatch_some _ _ _ _ _ F) as (Hk & Hn & Hcmp & Hmin).
    rewrite Z.sub_0_r in Hn, Hmin.
    split; [exact (nth_error_In _ _ Hn) | ]. right.
    split; [exact Hk | ]. split; [exact Hn | ].
    split.
    + apply (signature_compare _ entry Hlen); [ | exact Hcmp].
      exact (nth_error_In _ _ Hn).
    + intros i e Hi He Heq.
      pose proof (Hmin i e Hi He) as Hno.
      rewrite (proj2 (signature_compare _ e Hlen (nth_error_In _ _ He)) Heq)
        in Hno.
      discriminate.
  - destruct Hm as [-> ->].
    split; [do 30 right; left; reflexivity | ]. left.
    split; [exact H0 | ].
    intros entry Hin Heq.
    pose proof (firstMatch_none_inv _ _ _ F entry Hin) as Hno.
    rewrite (proj2 (signature_compare _ entry Hlen Hin) Heq) in Hno.
    discriminate.
Qed.

(** *** The tables *)

Lemma deviceDatabase_distinct (dbEntry : deviceDatabaseType) :
  In dbEntry deviceDatabase ->
  find (matchesSum (md5sum dbEntry)) deviceDatabase = Some dbEntry.
Proof.
  intros Hin. cbn in Hin.
  repeat (destruct Hin as [<- | Hin]; [reflexivity | ]).
  contradiction.
Qed.


(** X13.  Every entry of [deviceDatabase] can be reached: for the MD5 sum of
    any entry, the lookup prints the sum and then the name of that very
    entry.  The 36 sums of the table are pairwise different, so no entry is
    hidden behind an earlier one. *)
Theorem deviceDatabase_roundtrip (dbEntry : deviceDatabaseType) (s : state) :
  In dbEntry deviceDatabase ->
  emitted (identifyBootloader (md5sum dbEntry) false s)
  = sumText (md5sum dbEntry) ++ [SerialPrint "" true]
    ++ SerialPrint "Bootloader name: " false
       :: nameText (filename dbEntry) ++ [SerialPrint "" true].
Proof.
  intros Hin. unfold identifyBootloader. step.
  rewrite showBytes_outcome. cbn [final emitted]. fold (sumText (md5sum dbEntry)).
  rewrite searchDatabase_find, (deviceDatabase_distinct dbEntry Hin).
  cbn [value final emitted]. step. rewrite app_nil_r. reflexivity.
Qed.


Lemma signatures_regionsFit :
  forall entry, In entry signatures -> regionsFit entry = true.
Proof.
  intros entry Hin. cbn in Hin.
  repeat (destruct Hin as [<- | Hin]; [vm_compute; reflexivity | ]).
  contradiction.
Qed.

(** X15.  For every entry of [signatures] and every value of the fuses: no
    region is found exactly when the entry's [baseBootSize] is 0, the message
    "No bootloader fuse." is never printed, and a region that is found has
    between 256 and 8192 bytes, ends exactly at the end of flash and starts
    on a page boundary. *)
Theorem table_regions (s : state) :
  In (currentSignature s) signatures ->
  let cs := currentSignature s in
  (value (locateBootloader s) = None <-> baseBootSize cs = 0)
  /\ ~ In (SerialPrint "No bootloader fuse." true) (emitted (locateBootloader s))
  /\ (forall addr len : Z,
        value (locateBootloader s) = Some (addr, len) ->
        256 <= len <= 8192
        /\ 0 <= addr
        /\ addr + len = flashSize cs
        /\ addr mod pageSize cs = 0).
Proof.
  intros Hin cs.
  pose proof (signatures_regionsFit cs Hin) as Hfit.
  unfold regionsFit in Hfit.
  pose proof (locateBootloader_cases s) as C. cbn zeta in C. fold cs in C.
  destruct (baseBootSize cs =? 0) eqn:B.
  - rewrite C. apply Z.eqb_eq in B. cbn [value emitted].
    split; [tauto | ]. split; [ | discriminate].
    intros [H | []]. discriminate H.
  - cbn [orb] in Hfit. apply andb_true_iff in Hfit. destruct Hfit as [Hfuse Hall].
    apply Z.eqb_neq in B.
    destruct C as (t & h1 & h2 & h3 & hFuse & C).
    rewrite Hfuse in C.
    destruct C as (t' & w1 & w2 & w3 & whichFuse & C).
    rewrite C. cbn [value emitted].
    split; [split; [discriminate | contradiction] | ].
    split.
    { cbn. intros H.
      repeat (destruct H as [H | H]; [discriminate H | ]). exact H. }
    intros addr len Hv. injection Hv as <- <-.
    rewrite forallb_forall in Hall.
    specialize (Hall (bootMultiplier whichFuse) (bootMultiplier_range whichFuse)).
    cbn zeta in Hall.
    rewrite !andb_true_iff, !Z.leb_le, !Z.eqb_eq in Hall.
    tauto.
Qed.

(** *** Who writes the signature globals *)

(** X16.  getSignature alone writes the signature globals: startProgramming,
    getFuseBytes, readBootloader and readProgram all end with [foundSig] and
    [currentSignature] as they found them, for every target and state. *)
Theorem signature_globals_kept :
  (forall (fuel : nat) (s : state),
      foundSig (final (startProgramming fuel s)) = foundSig s
      /\ currentSignature (final (startProgramming fuel s)) = currentSignature s)
  /\ (forall s : state,
        foundSig (final (getFuseBytes s)) = foundSig s
        /\ currentSignature (final (getFuseBytes s)) = currentSignature s)
  /\ (forall s : state,
        foundSig (final (readBootloader s)) = foundSig s
        /\ currentSignature (final (readBootloader s)) = currentSignature s)
  /\ (forall s : state,
        foundSig (final (readProgram s)) = foundSig s
        /\ currentSignature (final (readProgram s)) = currentSignature s).
Proof.
  set (Q := fun (A : Type) (m : M state A) =>
              forall s, foundSig (final (m s)) = foundSig s
                        /\ currentSignature (final (m s)) = currentSignature s).
  assert (forall (A : Type) (a : A), Q A (ret a)) as Hret
      by (intros A a s; split; reflexivity).
  assert (forall (A B : Type) (m : M state A) (k : A -> M state B),
             Q A m -> (forall a, Q B (k a)) -> Q B (bind m k)) as Hbind.
  { intros A B m k Hm Hk s. step.
    destruct (Hk (value (m s)) (final (m s))) as [-> ->]. apply Hm. }
  assert (forall e : event, isIsp e = false -> Q unit (emit e)) as Hemit
      by (intros e _ s; split; reflexivity).
  assert (forall (A : Type) (f : state -> A), Q A (gets f)) as Hgets
      by (intros A f s; split; reflexivity).
  assert (forall b1 b2 b3 b4 : Z,
             isReadCommand b1 = true -> Q Z (program b1 b2 b3 b4)) as Hread.
  { intros b1 b2 b3 b4 _ s.
    destruct (program_globals b1 b2 b3 b4 s) as (Hf & _ & Hc). auto. }
  assert (forall addr : Z, Q Z (readFlash addr)) as Hflash.
  { intros addr s.
    split.
    - apply (keeps_foundSig (readFlash addr) s).
      apply commutes_readFlash, update_foundSig.
    - pose proof (commutes_readFlash _ (update_currentSignature
                                          (currentSignature s)) addr s) as H.
      assert (set_currentSignature (currentSignature s) s = s) as Hs
          by (destruct s; reflexivity).
      rewrite Hs in H. rewrite H at 1. reflexivity. }
  assert (Q Z enterAttempt) as Henter.
  { intros s.
    destruct (enterAttempt_outcome s) as (t & r1 & r2 & c & r4 & ->).
    split; reflexivity. }
  split; [ | split; [ | split]].
  - intros fuel. apply (Q_startProgramming Q); assumption.
  - apply (Q_getFuseBytes Q); assumption.
  - apply (Q_readBootloader Q); assumption.
  - apply (Q_readProgram Q); assumption.
Qed.

End MoreProofs.


(** ** These theorems at work *)

Lemma hexText_roundtrip_witness :
  0 <= 0xDE < 256 /\ readHex (hexText 0xDE) = Some 0xDE.
Proof. split; [lia | apply hexText_roundtrip; lia]. Defined.

Lemma readFlash_address_roundtrip_witness :
  0 <= 0x3E001 < 2 ^ 24
  /\ exists e,
       flashReads (emitted (readFlash 0x3E001 uno_328p)) = [e]
       /\ decodeAddress (lastAddressMSB (final (readFlash 0x3E001 uno_328p)))
            (instruction e) = Some 0x3E001.
Proof.
  split; [lia | ].
  apply (readFlash_address_roundtrip (tr := avr_target)). lia.
Defined.

Lemma startProgramming_enters_witness :
  (2 <= 50)%nat /\ (51 <= 51)%nat
  /\ (forall j, (j < 2)%nat ->
        value (@enterAttempt sleepy uno (@afterAttempts sleepy uno j sleepy_start))
        <> programAcknowledge)
  /\ value (@enterAttempt sleepy uno (@afterAttempts sleepy uno 2 sleepy_start))
     = programAcknowledge
  /\ value (@startProgramming sleepy uno 51 sleepy_start) = Some true
  /\ List.length (filter isEnable
                    (emitted (@startProgramming sleepy uno 51 sleepy_start)))
     = 3%nat.
Proof.
  assert (forall j, (j < 2)%nat ->
        value (@enterAttempt sleepy uno (@afterAttempts sleepy uno j sleepy_start))
        <> programAcknowledge) as Hbefore.
  { intros [|[|j]] Hj; [vm_compute; discriminate | vm_compute; discriminate | lia]. }
  assert (value (@enterAttempt sleepy uno (@afterAttempts sleepy uno 2 sleepy_start))
          = programAcknowledge) as Hack by (vm_compute; reflexivity).
  split; [lia | ]. split; [lia | ]. split; [exact Hbefore | ].
  split; [exact Hack | ].
  destruct (startProgramming_enters (tr := sleepy) (bd := uno) (md := rfc1321)
              2 51 sleepy_start ltac:(lia) ltac:(lia) Hbefore Hack)
    as (Hv & _ & Hc & _).
  split; [exact Hv | exact Hc].
Defined.

Lemma startProgramming_bounded_witness :
  (51 <= 60)%nat
  /\ @startProgramming unconnected uno 60 nothing_connected
     = @startProgramming unconnected uno 51 nothing_connected.
Proof.
  split; [lia | ].
  apply (startProgramming_bounded (tr := unconnected) (bd := uno) (md := rfc1321)).
  lia.
Defined.


Lemma readBootloader_reads_twice_witness :
  value (locateBootloader identified_328p) = Some (32256, 512)
  /\ 0 <= 32256 /\ 0 <= 512 <= 32767 /\ 32256 + 512 <= 2 ^ 32
  /\ List.length
       (flashReads (emitted (@readBootloader avr_target rfc1321 identified_328p)))
     = Z.to_nat (2 * 512).
Proof.
  assert (value (locateBootloader identified_328p) = Some (32256, 512)) as Hv
      by (vm_compute; reflexivity).
  split; [exact Hv | ]. split; [lia | ]. split; [lia | ]. split; [lia | ].
  apply (readBootloader_reads_twice (tr := avr_target) (md := rfc1321)
           identified_328p 32256 512 Hv); lia.
Defined.

Lemma readBootloader_without_region_witness :
  value (locateBootloader as_attiny24) = None
  /\ flashReads (emitted (@readBootloader avr_target rfc1321 as_attiny24)) = [].
Proof.
  assert (value (locateBootloader as_attiny24) = None) as Hv
      by (vm_compute; reflexivity).
  split; [exact Hv | ].
  apply (readBootloader_without_region (tr := avr_target) (md := rfc1321)
           as_attiny24 Hv).
Defined.

Lemma deviceDatabase_roundtrip_witness :
  let dbEntry :=
    mkDb [0x0A; 0xAC; 0xF7; 0x16; 0xF4; 0x3C; 0xA2; 0xC9;
          0x27; 0x7E; 0x08; 0xB9; 0xD6; 0x90; 0xBC; 0x02]
         "ATmegaBOOT_168_atmega328" in
  In dbEntry deviceDatabase
  /\ emitted (identifyBootloader (md5sum dbEntry) false uno_328p)
     = sumText (md5sum dbEntry) ++ [SerialPrint "" true]
       ++ SerialPrint "Bootloader name: " false
          :: nameText (filename dbEntry) ++ [SerialPrint "" true].
Proof.
  intros dbEntry.
  assert (In dbEntry deviceDatabase) as Hin by (left; reflexivity).
  split; [exact Hin | ].
  apply (deviceDatabase_roundtrip (tr := avr_target) dbEntry uno_328p Hin).
Defined.

Lemma table_regions_witness :
  In (currentSignature identified_328p) signatures
  /\ (value (locateBootloader identified_328p) = None
      <-> baseBootSize (currentSignature identified_328p) = 0).
Proof.
  assert (In (currentSignature identified_328p) signatures) as Hin.
  { do 9 right. left. vm_compute. reflexivity. }
  split; [exact Hin | ].
  apply (table_regions (tr := avr_target) identified_328p Hin).
Defined.
